(** * gui_app.py: the PyQt client of the Bedrock knowledge base

    A shallow embedding of [src/gui_app.py]: the four worker threads
    ([KBValidateWorker], [AskWorker], [UploadWorker], [SyncWorker]) and the
    slots of [MainWindow] that dispatch them.

    The workers talk to libraries the repository does not contain (boto3,
    strands, PyQt) and to two modules of the repository that are not part of
    the sources at hand ([pdf_uploader], [kb_for_rrag]).  Every call that
    leaves [gui_app.py] is an oracle of a [Runtime]: it reads the process
    environment, steps an opaque [World] and either returns or raises.  A
    worker is a computation in a state-and-exception monad whose state holds
    the world, [os.environ] and the trace of calls made and signals emitted,
    in program order.

    The guarded import of [boto3] and [ClientError] at the head of the
    module may have failed: a [Runtime] says whether the two names are bound,
    and the health check, the one worker that uses them, raises [NameError]
    where the code does.  [PAPER_AGENT_PROMPT] and [PDFUploader] are taken as
    bound.  What is raised is an [Exception], which [except Exception]
    catches. *)

From Stdlib Require Import Ascii String.
From stdpp Require Import base strings gmap list pretty.

Open Scope string_scope.
Open Scope list_scope.
Open Scope nat_scope.

(** ** Python values and strings *)

(** The values stored in the response dictionaries that the code looks at:
    a string, or [None] (also the result of [dict.get] on a missing key). *)
Inductive pyval :=
  | PyNone
  | PyStr (s : string).

(** [bool(v)]: [None] and the empty string are falsy. *)
Definition truthy (v : pyval) : bool :=
  match v with
  | PyNone => false
  | PyStr s => negb (String.eqb s "")
  end.

(** [f"{v}"] *)
Definition py_str (v : pyval) : string :=
  match v with
  | PyNone => "None"
  | PyStr s => s
  end.

(** [a or b] *)
Definition py_or (a b : pyval) : pyval := if truthy a then a else b.

(** [d.get(k)] *)
Definition dict_get (d : gmap string pyval) (k : string) : pyval :=
  default PyNone (d !! k).

(** [x or None] for a string [x], and the truth value of an [Optional[str]]. *)
Definition or_None (s : string) : option string :=
  if String.eqb s "" then None else Some s.

Definition truthy_opt (o : option string) : bool :=
  match o with
  | Some s => negb (String.eqb s "")
  | None => false
  end.

(** The newline of ["\n".join(..)] and of the f-strings. *)
Definition nl : string := String (ascii_of_nat 10) "".

(** [sep.join(l)] is [String.concat sep l]. *)
Definition join (sep : string) (l : list string) : string := String.concat sep l.

(** [str.strip()] on the UTF-8 bytes of a string: it removes, at both ends,
    the code points for which [str.isspace] holds (U+0009..U+000D,
    U+001C..U+0020, U+0085, U+00A0, U+1680, U+2000..U+200A, U+2028, U+2029,
    U+202F, U+205F, U+3000). *)
Definition is_space1 (a : ascii) : bool :=
  let n := nat_of_ascii a in
  ((9 <=? n) && (n <=? 13)) || ((28 <=? n) && (n <=? 32)).

Definition is_space2 (a b : ascii) : bool :=
  (nat_of_ascii a =? 194) && ((nat_of_ascii b =? 133) || (nat_of_ascii b =? 160)).

Definition is_space3 (a b c : ascii) : bool :=
  let x := nat_of_ascii a in
  let y := nat_of_ascii b in
  let z := nat_of_ascii c in
  ((x =? 225) && (y =? 154) && (z =? 128))
  || ((x =? 226) && (y =? 128)
      && (((128 <=? z) && (z <=? 138)) || (z =? 168) || (z =? 169) || (z =? 175)))
  || ((x =? 226) && (y =? 129) && (z =? 159))
  || ((x =? 227) && (y =? 128) && (z =? 128)).

(** [rev] tells the direction: on the reversed string the bytes of a code
    point come last byte first. *)
Fixpoint strip_front (rev : bool) (s : string) : string :=
  match s with
  | "" => ""
  | String a r1 =>
      if is_space1 a then strip_front rev r1
      else
        match r1 with
        | "" => s
        | String b r2 =>
            if (if rev then is_space2 b a else is_space2 a b) then strip_front rev r2
            else
              match r2 with
              | "" => s
              | String c r3 =>
                  if (if rev then is_space3 c b a else is_space3 a b c)
                  then strip_front rev r3
                  else s
              end
        end
  end.

Definition lstrip (s : string) : string := strip_front false s.
Definition rstrip (s : string) : string :=
  String.rev (strip_front true (String.rev s)).
Definition strip (s : string) : string := rstrip (lstrip s).

(** ** Exceptions *)

(** The exceptions the handlers tell apart: botocore's [ClientError] with its
    [response] dictionary, the [KeyError] of a failed subscript, the
    [NameError] of an unbound global name, and any other [Exception], each
    with what [str(e)] needs. *)
Inductive exn :=
  | ClientError (response : gmap string (gmap string pyval)) (msg : string)
  | KeyError (key : string)
  | NameError (name : string)
  | Exception (msg : string).

(** [f"{e}"]; the [str] of a [KeyError] is the [repr] of its key. *)
Definition exn_str (e : exn) : string :=
  match e with
  | ClientError _ msg => msg
  | KeyError key => "'" +:+ key +:+ "'"
  | NameError name => "name '" +:+ name +:+ "' is not defined"
  | Exception msg => msg
  end.

Inductive result (A : Type) :=
  | Ok (a : A)
  | Raise (e : exn).
Arguments Ok {A} a.
Arguments Raise {A} e.

(** ** Signals, calls and the trace *)

(** The [pyqtSignal(str)] attributes of the workers. *)
Inductive signal :=
  | progress (s : string)
  | finished (s : string)
  | failed (s : string).

(** [strands_tools.retrieve] and [strands_tools.http_request]. *)
Inductive tool :=
  | retrieve
  | http_request.

Global Instance tool_eq_dec : EqDecision tool.
Proof. solve_decision. Defined.

(** What lies outside [gui_app.py].  [oracle] is the shape of every external
    call: it may read [os.environ], steps the world, and returns or raises. *)
Record Runtime := {
  World : Type;
  Client : Type;
  AgentT : Type;
  AgentResult : Type;
  Uploader : Type;
  oracle (X : Type) : Type := gmap string string -> World -> World * result X;
  (* [from kb_for_rrag import PAPER_AGENT_PROMPT] *)
  PAPER_AGENT_PROMPT : string;
  (* [traceback.format_exc()] while [e] is being handled *)
  format_exc : exn -> string;
  (* [str(resp)] of an agent result *)
  str_result : AgentResult -> string;
  (* the global name [boto3] after the guarded import at the head of the
     module: unbound when the import failed, else the module, of which the
     code uses [client(service, **kwargs)] *)
  boto3 : option (string -> gmap string string -> oracle Client);
  (* [client.get_knowledge_base(knowledgeBaseId=..)] *)
  get_knowledge_base : Client -> string -> oracle (gmap string (gmap string pyval));
  (* [client.list_data_sources(knowledgeBaseId=..)] *)
  list_data_sources : Client -> string -> oracle (gmap string (list (gmap string pyval)));
  (* [from strands import Agent], [from strands_tools import retrieve, http_request] *)
  import_strands : oracle unit;
  (* [Agent(model=.., system_prompt=.., tools=..)] *)
  Agent : string -> string -> list tool -> oracle AgentT;
  (* [agent(prompt)] *)
  Agent_call : AgentT -> string -> oracle AgentResult;
  (* [PDFUploader(bucket_name, knowledge_base_id)] *)
  PDFUploader : string -> option string -> oracle Uploader;
  (* [uploader.upload_pdf(f, prefix)] *)
  upload_pdf : Uploader -> string -> string -> oracle string;
  (* the service's acceptance of a re-index request *)
  start_ingestion : Uploader -> oracle unit;
}.

(** [boto3.client(service, **kwargs)] as [gui_app.py] evaluates it: looking
    up an unbound [boto3] raises [NameError] and the library is not reached
    (the trace records that the call expression was evaluated). *)
Definition boto3_client (R : Runtime) (service : string) (kwargs : gmap string string)
  : oracle R (Client R) :=
  match boto3 R with
  | Some client => client service kwargs
  | None => fun _ w => (w, Raise (NameError "boto3"))
  end.

(** Whether the global name [ClientError] is bound.  One guarded block
    imports [boto3] and then [ClientError] from [botocore.exceptions], a
    module that [boto3] has itself imported by then: the two names are bound
    together or not at all. *)
Definition ClientError_bound (R : Runtime) : bool :=
  match boto3 R with
  | Some _ => true
  | None => false
  end.

Arguments boto3_client : simpl never.
Arguments ClientError_bound : simpl never.

Section Workers.
Context {R : Runtime}.

(** The calls as they are logged. *)
Inductive call :=
  | c_boto3_client (service : string) (kwargs : gmap string string)
  | c_get_knowledge_base (c : Client R) (knowledgeBaseId : string)
  | c_list_data_sources (c : Client R) (knowledgeBaseId : string)
  | c_import_strands
  | c_Agent (model system_prompt : string) (tools : list tool)
  | c_Agent_call (a : AgentT R) (prompt : string)
  | c_PDFUploader (bucket_name : string) (knowledge_base_id : option string)
  | c_upload_pdf (u : Uploader R) (f prefix : string)
  | c_start_ingestion (u : Uploader R).

Inductive event :=
  | Call (c : call)
  | Emit (s : signal).

Record State := {
  world : World R;
  environ : gmap string string;
  trace : list event;
}.

(** ** The monad of a worker's [run] *)

Definition M (A : Type) : Type := State -> State * result A.

Definition ret {A} (a : A) : M A := fun st => (st, Ok a).

Definition bind {A B} (m : M A) (k : A -> M B) : M B :=
  fun st =>
    match m st with
    | (st', Ok a) => k a st'
    | (st', Raise e) => (st', Raise e)
    end.

Definition raise {A} (e : exn) : M A := fun st => (st, Raise e).

(** [try: m  except Exception as e: h e] *)
Definition try_except {A} (m : M A) (h : exn -> M A) : M A :=
  fun st =>
    match m st with
    | (st', Ok a) => (st', Ok a)
    | (st', Raise e) => h e st'
    end.

Definition log (ev : event) (st : State) : State :=
  {| world := world st; environ := environ st; trace := trace st ++ [ev] |}.

(** [self.<signal>.emit(..)] *)
Definition emit (s : signal) : M unit := fun st => (log (Emit s) st, Ok tt).

(** An external call: logged, then answered by its oracle. *)
Definition extern {X} (c : call) (o : oracle R X) : M X :=
  fun st =>
    let '(w, r) := o (environ st) (world st) in
    ({| world := w; environ := environ st; trace := trace st ++ [Call c] |}, r).

Definition has_nul (s : string) : bool :=
  existsb (fun a => nat_of_ascii a =? 0) (list_ascii_of_string s).

(** [os.environ[k] = v]; [putenv] refuses a value with a NUL byte. *)
Definition setenv (k v : string) : M unit :=
  fun st =>
    if has_nul v then (st, Raise (Exception "embedded null byte"))
    else ({| world := world st; environ := <[k := v]> (environ st); trace := trace st |},
          Ok tt).

(** [d[k]] *)
Definition subscript {V} (d : gmap string V) (k : string) : M V :=
  match d !! k with
  | Some v => ret v
  | None => raise (KeyError k)
  end.

End Workers.

Arguments call : clear implicits.
Arguments event : clear implicits.
Arguments State : clear implicits.
Arguments M : clear implicits.

Declare Scope run_scope.
Delimit Scope run_scope with run.
Notation "x <- m ;; k" := (bind m (fun x => k))
  (at level 100, m at next level, right associativity) : run_scope.
Notation "m ;;; k" := (bind m (fun _ => k))
  (at level 100, right associativity) : run_scope.

(** ** The worker threads *)

Section Run.
Context {R : Runtime}.
Local Open Scope run_scope.

(** *** [KBValidateWorker.run] *)

(** The line of the summary for one entry of [dataSourceSummaries]. *)
Definition source_line (s : gmap string pyval) : string :=
  let name := py_or (dict_get s "name") (dict_get s "dataSourceId") in
  " - " +:+ py_str name.

(** [msg.append(..)] for every summary, in order. *)
Definition append_sources (msg : list string) (summaries : list (gmap string pyval))
  : list string :=
  fold_left (fun msg s => msg ++ [source_line s]) summaries msg.

(** The list [msg] when [run] reaches its [emit]. *)
Definition kb_lines (kb_id : string) (kb : gmap string pyval)
    (ds : gmap string (list (gmap string pyval))) : list string :=
  let status := dict_get kb "status" in
  let msg := ["[KB] ID=" +:+ kb_id +:+ ", 상태=" +:+ py_str status] in
  let summaries := default [] (ds !! "dataSourceSummaries") in
  match summaries with
  | [] => msg ++ ["[KB] 데이터 소스: 없음 (S3 데이터 소스 추가 필요)"]
  | _ :: _ =>
      let msg := msg ++ ["[KB] 데이터 소스: " +:+ pretty (length summaries) +:+ "개"] in
      append_sources msg summaries
  end.

Definition session_kwargs (region : option string) : gmap string string :=
  match region with
  | Some r => if truthy_opt region then {["region_name" := r]} else ∅
  | None => ∅
  end.

Definition kb_body (kb_id : string) (region : option string) : M R unit :=
  client <- extern (c_boto3_client "bedrock-agent" (session_kwargs region))
              (boto3_client R "bedrock-agent" (session_kwargs region)) ;;
  resp <- extern (c_get_knowledge_base client kb_id) (get_knowledge_base R client kb_id) ;;
  kb <- subscript resp "knowledgeBase" ;;
  ds <- extern (c_list_data_sources client kb_id) (list_data_sources R client kb_id) ;;
  emit (finished (join nl (kb_lines kb_id kb ds))).

(** The two [except] clauses.  [except ClientError] evaluates the name
    [ClientError] before it looks at the exception: unbound, it raises
    [NameError], which leaves [run] with no further clause tried. *)
Definition kb_handler (e : exn) : M R unit :=
  if ClientError_bound R then
    match e with
    | ClientError response _ =>
        let code := dict_get (default ∅ (response !! "Error")) "Code" in
        emit (failed ("[KB 점검 실패] " +:+ py_str code +:+ ": " +:+ exn_str e))
    | _ =>
        emit (failed ("[KB 점검 실패] " +:+ exn_str e +:+ nl +:+ format_exc R e))
    end
  else raise (NameError "ClientError").

Definition KBValidateWorker_run (kb_id : string) (region : option string) : M R unit :=
  try_except (kb_body kb_id region) kb_handler.

(** *** [AskWorker.run] *)

Definition ask_tools (allow_web : bool) : list tool :=
  let tools := [retrieve] in
  if allow_web then tools ++ [http_request] else tools.

Definition ask_body (kb_id : string) (region : option string) (prompt : string)
    (allow_web : bool) : M R unit :=
  setenv "KNOWLEDGE_BASE_ID" kb_id ;;;
  (match region with
   | Some r =>
       if truthy_opt region
       then setenv "AWS_REGION" r ;;; setenv "AWS_DEFAULT_REGION" r
       else ret tt
   | None => ret tt
   end) ;;;
  extern c_import_strands (import_strands R) ;;;
  agent <- extern (c_Agent "us.amazon.nova-lite-v1:0" (PAPER_AGENT_PROMPT R) (ask_tools allow_web))
             (Agent R "us.amazon.nova-lite-v1:0" (PAPER_AGENT_PROMPT R) (ask_tools allow_web)) ;;
  resp <- extern (c_Agent_call agent prompt) (Agent_call R agent prompt) ;;
  emit (finished (str_result R resp)).

Definition ask_handler (e : exn) : M R unit :=
  emit (failed ("[질문 처리 오류] " +:+ exn_str e +:+ nl +:+ format_exc R e)).

Definition AskWorker_run (kb_id : string) (region : option string) (prompt : string)
    (allow_web : bool) : M R unit :=
  try_except (ask_body kb_id region prompt allow_web) ask_handler.

(** *** [UploadWorker.run] *)

(** The [for f in self.files] loop; [uploaded] is the list built so far. *)
Fixpoint upload_loop (uploader : Uploader R) (prefix : string) (files : list string)
    (uploaded : list string) : M R (list string) :=
  match files with
  | [] => ret uploaded
  | f :: rest =>
      emit (progress ("[업로드] " +:+ f +:+ " ...")) ;;;
      uri <- extern (c_upload_pdf uploader f prefix) (upload_pdf R uploader f prefix) ;;
      let uploaded := uploaded ++ [uri] in
      emit (progress ("[완료] " +:+ uri)) ;;;
      upload_loop uploader prefix rest uploaded
  end.

Definition upload_body (bucket : string) (kb_id : option string) (prefix : string)
    (files : list string) : M R unit :=
  uploader <- extern (c_PDFUploader bucket kb_id) (PDFUploader R bucket kb_id) ;;
  uploaded <- upload_loop uploader prefix files [] ;;
  emit (finished ("총 " +:+ pretty (length uploaded) +:+ "개 업로드 완료")).

Definition upload_handler (e : exn) : M R unit :=
  emit (failed ("[업로드 실패] " +:+ exn_str e +:+ nl +:+ format_exc R e)).

Definition UploadWorker_run (bucket : string) (kb_id : option string) (prefix : string)
    (files : list string) : M R unit :=
  try_except (upload_body bucket kb_id prefix files) upload_handler.

(** *** [SyncWorker.run] *)

(** Modelled from the spec: [PDFUploader.sync_knowledge_base] of
    [pdf_uploader.py], which is not among the sources.  It asks the managed
    service to begin a re-index pass and returns as soon as the request is
    accepted ([start_ingestion] is that acceptance); it neither polls nor
    waits for the pass to finish, and a refusal is raised to the caller. *)
Definition sync_knowledge_base (uploader : Uploader R) : M R unit :=
  extern (c_start_ingestion uploader) (start_ingestion R uploader).

Definition sync_body (kb_id : string) : M R unit :=
  uploader <- extern (c_PDFUploader "dummy" (Some kb_id)) (PDFUploader R "dummy" (Some kb_id)) ;;
  sync_knowledge_base uploader ;;;
  emit (finished "KB 동기화 작업 시작 요청 완료 (완료까지 수 분 소요)").

Definition sync_handler (e : exn) : M R unit :=
  emit (failed ("[동기화 실패] " +:+ exn_str e +:+ nl +:+ format_exc R e)).

Definition SyncWorker_run (kb_id : string) : M R unit :=
  try_except (sync_body kb_id) sync_handler.

(** *** Reading a trace *)

Definition emitted (t : list (event R)) : list signal :=
  omap (fun ev => match ev with Emit s => Some s | Call _ => None end) t.

Definition called (t : list (event R)) : list (call R) :=
  omap (fun ev => match ev with Call c => Some c | Emit _ => None end) t.

End Run.

(** ** The window and its slots *)

(** A worker object, with the attributes its constructor stores. *)
Inductive worker :=
  | KBValidateWorker (kb_id : string) (region : option string)
  | AskWorker (kb_id : string) (region : option string) (prompt : string) (allow_web : bool)
  | UploadWorker (bucket : string) (kb_id : option string) (prefix : string)
      (files : list string)
  | SyncWorker (kb_id : string).

(** [QThread.run] of each class. *)
Definition worker_run {R : Runtime} (w : worker) : M R unit :=
  match w with
  | KBValidateWorker kb_id region => KBValidateWorker_run kb_id region
  | AskWorker kb_id region prompt allow_web => AskWorker_run kb_id region prompt allow_web
  | UploadWorker bucket kb_id prefix files => UploadWorker_run bucket kb_id prefix files
  | SyncWorker kb_id => SyncWorker_run kb_id
  end.

(** The modal boxes of [QMessageBox]: the static call returns only when the
    user has dismissed the box. *)
Inductive dialog :=
  | warning (title text : string)
  | information (title text : string).

(** The widgets the slots read or write, the four worker references, the
    boxes shown so far and the threads started so far ([QThread.start]). *)
Record MainWindow := {
  ed_region : string;
  ed_kb : string;
  ed_bucket : string;
  ed_prefix : string;
  cb_allow_web : bool;
  ed_prompt : string;
  txt_answer : string;
  list_files : list string;
  txt_log : list string;
  _ask_worker : option worker;
  _kb_worker : option worker;
  _upload_worker : option worker;
  _sync_worker : option worker;
  dialogs : list dialog;
  started : list worker;
}.

Definition show (d : dialog) (w : MainWindow) : MainWindow :=
  {| ed_region := ed_region w; ed_kb := ed_kb w; ed_bucket := ed_bucket w;
     ed_prefix := ed_prefix w; cb_allow_web := cb_allow_web w; ed_prompt := ed_prompt w;
     txt_answer := txt_answer w; list_files := list_files w; txt_log := txt_log w;
     _ask_worker := _ask_worker w; _kb_worker := _kb_worker w;
     _upload_worker := _upload_worker w; _sync_worker := _sync_worker w;
     dialogs := dialogs w ++ [d]; started := started w |}.

(** [self.txt_log.appendPlainText(text)] *)
Definition _append_log (text : string) (w : MainWindow) : MainWindow :=
  {| ed_region := ed_region w; ed_kb := ed_kb w; ed_bucket := ed_bucket w;
     ed_prefix := ed_prefix w; cb_allow_web := cb_allow_web w; ed_prompt := ed_prompt w;
     txt_answer := txt_answer w; list_files := list_files w; txt_log := txt_log w ++ [text];
     _ask_worker := _ask_worker w; _kb_worker := _kb_worker w;
     _upload_worker := _upload_worker w; _sync_worker := _sync_worker w;
     dialogs := dialogs w; started := started w |}.

(** [self.txt_answer.setPlainText(text)] *)
Definition set_answer (text : string) (w : MainWindow) : MainWindow :=
  {| ed_region := ed_region w; ed_kb := ed_kb w; ed_bucket := ed_bucket w;
     ed_prefix := ed_prefix w; cb_allow_web := cb_allow_web w; ed_prompt := ed_prompt w;
     txt_answer := text; list_files := list_files w; txt_log := txt_log w;
     _ask_worker := _ask_worker w; _kb_worker := _kb_worker w;
     _upload_worker := _upload_worker w; _sync_worker := _sync_worker w;
     dialogs := dialogs w; started := started w |}.

(** Storing the new worker in its attribute and calling [start()] on it. *)
Definition start (wk : worker) (w : MainWindow) : MainWindow :=
  {| ed_region := ed_region w; ed_kb := ed_kb w; ed_bucket := ed_bucket w;
     ed_prefix := ed_prefix w; cb_allow_web := cb_allow_web w; ed_prompt := ed_prompt w;
     txt_answer := txt_answer w; list_files := list_files w; txt_log := txt_log w;
     _ask_worker := match wk with AskWorker _ _ _ _ => Some wk | _ => _ask_worker w end;
     _kb_worker := match wk with KBValidateWorker _ _ => Some wk | _ => _kb_worker w end;
     _upload_worker := match wk with UploadWorker _ _ _ _ => Some wk | _ => _upload_worker w end;
     _sync_worker := match wk with SyncWorker _ => Some wk | _ => _sync_worker w end;
     dialogs := dialogs w; started := started w ++ [wk] |}.

(** The slot each signal of each worker is connected to. *)
Definition slot (wk : worker) (s : signal) (w : MainWindow) : MainWindow :=
  match wk, s with
  | KBValidateWorker _ _, finished msg => _append_log msg w
  | KBValidateWorker _ _, failed err => _append_log err w
  | KBValidateWorker _ _, progress _ => w
  | AskWorker _ _ _ _, finished msg => set_answer msg w
  | AskWorker _ _ _ _, failed err => set_answer err w
  | AskWorker _ _ _ _, progress _ => w
  | UploadWorker _ _ _ _, progress msg => _append_log msg w
  | UploadWorker _ _ _ _, finished msg => _append_log ("[업로드 완료] " +:+ msg) w
  | UploadWorker _ _ _ _, failed err => _append_log err w
  | SyncWorker _, finished msg => _append_log ("[동기화] " +:+ msg) w
  | SyncWorker _, failed err => _append_log err w
  | SyncWorker _, progress _ => w
  end.

Definition on_validate_kb (w : MainWindow) : MainWindow :=
  let kb_id := strip (ed_kb w) in
  let region := or_None (strip (ed_region w)) in
  if String.eqb kb_id "" then
    show (warning "입력 필요" "Knowledge Base ID를 입력하세요.") w
  else
    let w := _append_log ("[점검] KB=" +:+ kb_id +:+ ", Region="
                          +:+ default "(기본)" region) w in
    start (KBValidateWorker kb_id region) w.

Definition on_ask (w : MainWindow) : MainWindow :=
  let kb_id := strip (ed_kb w) in
  let region := or_None (strip (ed_region w)) in
  let prompt := strip (ed_prompt w) in
  let allow_web := cb_allow_web w in
  if String.eqb kb_id "" then
    show (warning "입력 필요" "Knowledge Base ID를 입력하세요.") w
  else if String.eqb prompt "" then
    show (information "입력 필요" "질문을 입력하세요.") w
  else
    let w := set_answer "생각 중... (KB 검색 중)" w in
    start (AskWorker kb_id region prompt allow_web) w.

Definition on_upload_files (w : MainWindow) : MainWindow :=
  let bucket := strip (ed_bucket w) in
  let kb_id := or_None (strip (ed_kb w)) in
  let prefix := default "documents/" (or_None (strip (ed_prefix w))) in
  if String.eqb bucket "" then
    show (warning "입력 필요" "S3 Bucket을 입력하세요.") w
  else
    let files := list_files w in
    match files with
    | [] => show (information "파일 없음" "업로드할 PDF 파일을 추가하세요.") w
    | _ :: _ =>
        let w := _append_log ("[업로드 시작] " +:+ pretty (length files)
                              +:+ "개 파일 → s3://" +:+ bucket +:+ "/" +:+ prefix) w in
        start (UploadWorker bucket kb_id prefix files) w
    end.

Definition on_sync_kb (w : MainWindow) : MainWindow :=
  let kb_id := strip (ed_kb w) in
  if String.eqb kb_id "" then
    show (warning "입력 필요" "Knowledge Base ID를 입력하세요.") w
  else
    let w := _append_log ("[동기화 요청] KB=" +:+ kb_id) w in
    start (SyncWorker kb_id) w.

(** The four operation kinds and the slot that triggers each. *)
Inductive op_kind := Validate | Ask | Upload | Sync.

Definition trigger (k : op_kind) : MainWindow -> MainWindow :=
  match k with
  | Validate => on_validate_kb
  | Ask => on_ask
  | Upload => on_upload_files
  | Sync => on_sync_kb
  end.

(** A required input of the operation is empty, in the words of the
    specification: the knowledge-base id for validate, ask and sync, the
    question for ask, the bucket or the file list for upload.  A field of
    white space only counts as empty, as the slots strip what they read. *)
Definition required_missing (k : op_kind) (w : MainWindow) : bool :=
  match k with
  | Validate => String.eqb (strip (ed_kb w)) ""
  | Ask => String.eqb (strip (ed_kb w)) "" || String.eqb (strip (ed_prompt w)) ""
  | Upload => String.eqb (strip (ed_bucket w)) "" || bool_decide (list_files w = [])
  | Sync => String.eqb (strip (ed_kb w)) ""
  end.

Definition worker_refs (w : MainWindow) : list (option worker) :=
  [_ask_worker w; _kb_worker w; _upload_worker w; _sync_worker w].

(** ** The rest of the window *)

(** [self.list_files.addItem(QListWidgetItem(f))] *)
Definition add_item (f : string) (w : MainWindow) : MainWindow :=
  {| ed_region := ed_region w; ed_kb := ed_kb w; ed_bucket := ed_bucket w;
     ed_prefix := ed_prefix w; cb_allow_web := cb_allow_web w; ed_prompt := ed_prompt w;
     txt_answer := txt_answer w; list_files := list_files w ++ [f]; txt_log := txt_log w;
     _ask_worker := _ask_worker w; _kb_worker := _kb_worker w;
     _upload_worker := _upload_worker w; _sync_worker := _sync_worker w;
     dialogs := dialogs w; started := started w |}.

(** [on_add_files]; [files] is what [QFileDialog.getOpenFileNames] returned,
    empty when the user cancelled. *)
Definition on_add_files (files : list string) (w : MainWindow) : MainWindow :=
  let w := fold_left (fun w f => add_item f w) files w in
  match files with
  | [] => w
  | _ :: _ => _append_log ("[선택] " +:+ pretty (length files) +:+ "개 파일 추가") w
  end.

(** [self.list_files.clear()] *)
Definition clear_files (w : MainWindow) : MainWindow :=
  {| ed_region := ed_region w; ed_kb := ed_kb w; ed_bucket := ed_bucket w;
     ed_prefix := ed_prefix w; cb_allow_web := cb_allow_web w; ed_prompt := ed_prompt w;
     txt_answer := txt_answer w; list_files := []; txt_log := txt_log w;
     _ask_worker := _ask_worker w; _kb_worker := _kb_worker w;
     _upload_worker := _upload_worker w; _sync_worker := _sync_worker w;
     dialogs := dialogs w; started := started w |}.

Definition on_clear_files (w : MainWindow) : MainWindow :=
  _append_log "[선택] 목록 비움" (clear_files w).

(** The slot of the clear button of the ask tab:
    [lambda: self.ed_prompt.setPlainText("")]. *)
Definition clear_prompt (w : MainWindow) : MainWindow :=
  {| ed_region := ed_region w; ed_kb := ed_kb w; ed_bucket := ed_bucket w;
     ed_prefix := ed_prefix w; cb_allow_web := cb_allow_web w; ed_prompt := "";
     txt_answer := txt_answer w; list_files := list_files w; txt_log := txt_log w;
     _ask_worker := _ask_worker w; _kb_worker := _kb_worker w;
     _upload_worker := _upload_worker w; _sync_worker := _sync_worker w;
     dialogs := dialogs w; started := started w |}.

(** The list [_load_errors] after the three guarded imports at the head of
    the module, from the outcome of each. *)
Definition load_errors (boto3 kb_for_rrag pdf_uploader : result unit) : list string :=
  match boto3 with
  | Ok _ => []
  | Raise e => ["boto3 import 오류: " +:+ exn_str e]
  end
  ++ match kb_for_rrag with
     | Ok _ => []
     | Raise e => ["kb_for_rrag import 오류: " +:+ exn_str e]
     end
  ++ match pdf_uploader with
     | Ok _ => []
     | Raise e => ["pdf_uploader import 오류: " +:+ exn_str e]
     end.

(** [a or d] for [a = os.environ.get(..)]: a missing or empty value gives [d]. *)
Definition get_or (a : option string) (d : string) : string :=
  match a with
  | Some s => if String.eqb s "" then d else s
  | None => d
  end.

(** [MainWindow.__init__] with [_build_ui]: the warning about failed
    imports, the line edits seeded from [os.environ], the unchecked box, the
    empty views and the four worker attributes set to [None]. *)
Definition MainWindow_init (_load_errors : list string) (env : gmap string string)
  : MainWindow :=
  {| ed_region := get_or (env !! "AWS_REGION") (get_or (env !! "AWS_DEFAULT_REGION") "");
     ed_kb := get_or (env !! "KNOWLEDGE_BASE_ID") "";
     ed_bucket := "";
     ed_prefix := "documents/";
     cb_allow_web := false;
     ed_prompt := "";
     txt_answer := "";
     list_files := [];
     txt_log := [];
     _ask_worker := None; _kb_worker := None;
     _upload_worker := None; _sync_worker := None;
     dialogs :=
       match _load_errors with
       | [] => []
       | _ :: _ =>
           [warning "의존성 경고"
              ("다음 모듈 로드 중 문제가 발생했습니다:" +:+ nl +:+ join nl _load_errors)]
       end;
     started := [] |}.

(** The signals of a worker reach the window one by one, in the order of
    their emission, each through the slot connected to it. *)
Definition deliver (wk : worker) (sigs : list signal) (w : MainWindow) : MainWindow :=
  fold_left (fun w s => slot wk s w) sigs w.

(** The line the log shows for a signal of the upload worker. *)
Definition upload_log_line (s : signal) : string :=
  match s with
  | progress msg => msg
  | finished msg => "[업로드 완료] " +:+ msg
  | failed err => err
  end.

Definition kind_of (wk : worker) : op_kind :=
  match wk with
  | KBValidateWorker _ _ => Validate
  | AskWorker _ _ _ _ => Ask
  | UploadWorker _ _ _ _ => Upload
  | SyncWorker _ => Sync
  end.

(** The attribute of the window that holds the worker of a kind. *)
Definition worker_ref (k : op_kind) (w : MainWindow) : option worker :=
  match k with
  | Validate => _kb_worker w
  | Ask => _ask_worker w
  | Upload => _upload_worker w
  | Sync => _sync_worker w
  end.

Definition nonempty (s : string) : bool := negb (String.eqb s "").

Definition nonempty_opt (o : option string) : bool :=
  match o with
  | Some s => nonempty s
  | None => true
  end.

(** The arguments of a worker are usable: no empty identifier, bucket,
    question or prefix, no empty file list, and an optional value is [None]
    rather than the empty string. *)
Definition well_formed (wk : worker) : bool :=
  match wk with
  | KBValidateWorker kb_id region => nonempty kb_id && nonempty_opt region
  | AskWorker kb_id region prompt _ =>
      nonempty kb_id && nonempty_opt region && nonempty prompt
  | UploadWorker bucket kb_id prefix files =>
      nonempty bucket && nonempty_opt kb_id && nonempty prefix
      && negb (bool_decide (files = []))
  | SyncWorker kb_id => nonempty kb_id
  end.

(** A signal that ends a run. *)
Definition is_terminal (s : signal) : bool :=
  match s with
  | progress _ => false
  | finished _ | failed _ => true
  end.

Definition is_progress_event {R : Runtime} (ev : event R) : bool :=
  match ev with
  | Emit (progress _) => true
  | Emit _ => false
  | Call _ => true
  end.

(** ** Observations used by the statements *)

Section Observations.
Context {R : Runtime}.

(** The state a computation leaves. *)
Definition exec {A} (m : M R A) (st : State R) : State R := fst (m st).

(** What the service answers to a health check started in [st]: the status
    of the knowledge base and the [list_data_sources] response, when the
    client can be made and both requests succeed. *)
Definition health_answers (kb_id : string) (region : option string) (st : State R)
  : option (pyval * gmap string (list (gmap string pyval))) :=
  match boto3_client R "bedrock-agent" (session_kwargs region) (environ st) (world st) with
  | (w1, Ok c) =>
      match get_knowledge_base R c kb_id (environ st) w1 with
      | (w2, Ok resp) =>
          match resp !! "knowledgeBase" with
          | Some kb =>
              match list_data_sources R c kb_id (environ st) w2 with
              | (_, Ok ds) => Some (dict_get kb "status", ds)
              | (_, Raise _) => None
              end
          | None => None
          end
      | (_, Raise _) => None
      end
  | (_, Raise _) => None
  end.

(** The transfers of [files] one after the other from world [w], up to and
    with the first that fails: the world they leave, the locators of those
    that succeeded, and the error of the one that failed. *)
Fixpoint transfer_all (u : Uploader R) (prefix : string) (files : list string)
    (env : gmap string string) (w : World R) : World R * list string * option exn :=
  match files with
  | [] => (w, [], None)
  | f :: rest =>
      match upload_pdf R u f prefix env w with
      | (w', Ok uri) =>
          let '(w'', uris, err) := transfer_all u prefix rest env w' in
          (w'', uri :: uris, err)
      | (w', Raise e) => (w', [], Some e)
      end
  end.

(** The events of the upload loop over [files] when the transfers return
    [uris]; a file without a locator is the one that failed. *)
Fixpoint loop_events (u : Uploader R) (prefix : string) (files uris : list string)
  : list (event R) :=
  match files, uris with
  | [], _ => []
  | f :: _, [] =>
      [Emit (progress ("[업로드] " +:+ f +:+ " ...")); Call (c_upload_pdf u f prefix)]
  | f :: rest, uri :: uris' =>
      Emit (progress ("[업로드] " +:+ f +:+ " ..."))
      :: Call (c_upload_pdf u f prefix)
      :: Emit (progress ("[완료] " +:+ uri))
      :: loop_events u prefix rest uris'
  end.

(** The two notifications of a transferred file. *)
Definition file_notes (fu : string * string) : list signal :=
  [progress ("[업로드] " +:+ fst fu +:+ " ..."); progress ("[완료] " +:+ snd fu)].

(** [os.environ] after the assignments at the head of [AskWorker.run]. *)
Definition ask_environ (kb_id : string) (region : option string)
    (env : gmap string string) : gmap string string :=
  let env := <["KNOWLEDGE_BASE_ID" := kb_id]> env in
  match region with
  | Some r =>
      if truthy_opt region then <["AWS_DEFAULT_REGION" := r]> (<["AWS_REGION" := r]> env)
      else env
  | None => env
  end.



End Observations.

(** ** A concrete runtime

    A small stand-in for the services, to run the workers on.  Its world is
    the list of what the remote side has stored or accepted.  As botocore
    does, [boto3.client] takes the region from its arguments or else from
    [AWS_DEFAULT_REGION], and raises when there is none. *)
Module Demo.

Definition kb1 : gmap string (gmap string pyval) :=
  {[ "knowledgeBase" := {[ "status" := PyStr "ACTIVE" ]} ]}.

Definition sources1 : list (gmap string pyval) :=
  [ {[ "name" := PyStr "lectures"; "dataSourceId" := PyStr "DS1" ]};
    {[ "dataSourceId" := PyStr "DS2" ]};
    {[ "name" := PyStr ""; "dataSourceId" := PyStr "DS3" ]} ].

Definition not_found : exn :=
  ClientError {[ "Error" := {[ "Code" := PyStr "ResourceNotFoundException" ]} ]}
    "An error occurred (ResourceNotFoundException) when calling the GetKnowledgeBase operation".

Definition runtime : Runtime := {|
  World := list string;
  Client := string;
  AgentT := list tool;
  AgentResult := string;
  Uploader := string * option string;
  PAPER_AGENT_PROMPT := "Answer from the knowledge base.";
  format_exc := fun e => "Traceback (most recent call last): " +:+ exn_str e;
  str_result := fun r => r;
  boto3 := Some (fun _ kwargs env w =>
    match kwargs !! "region_name" with
    | Some r => (w, Ok r)
    | None =>
        match env !! "AWS_DEFAULT_REGION" with
        | Some r => (w, Ok r)
        | None => (w, Raise (Exception "You must specify a region."))
        end
    end);
  get_knowledge_base := fun _ kb_id _ w =>
    if String.eqb kb_id "KB1" || String.eqb kb_id "KB0" then (w, Ok kb1)
    else (w, Raise not_found);
  list_data_sources := fun _ kb_id _ w =>
    if String.eqb kb_id "KB1" then (w, Ok {[ "dataSourceSummaries" := sources1 ]})
    else (w, Ok ∅);
  import_strands := fun _ w => (w, Ok tt);
  Agent := fun _ _ tools _ w => (w, Ok tools);
  Agent_call := fun _ prompt _ w => (w, Ok ("A: " +:+ prompt));
  PDFUploader := fun bucket kb_id _ w => (w, Ok (bucket, kb_id));
  upload_pdf := fun u f prefix _ w =>
    if String.eqb f "missing.pdf" then (w, Raise (Exception "No such file"))
    else let uri := "s3://" +:+ fst u +:+ "/" +:+ prefix +:+ f in (w ++ [uri], Ok uri);
  start_ingestion := fun u _ w =>
    match snd u with
    | Some kb_id =>
        if String.eqb kb_id "KB1" then (w ++ ["ingestion STARTING"], Ok tt)
        else (w, Raise not_found)
    | None => (w, Raise (Exception "knowledge base id is not set"))
    end;
|}.

Definition st0 : State runtime :=
  {| world := ([] : World runtime); environ := ∅; trace := [] |}.

Definition window : MainWindow := {|
  ed_region := ""; ed_kb := ""; ed_bucket := ""; ed_prefix := "documents/";
  cb_allow_web := false; ed_prompt := ""; txt_answer := "";
  list_files := []; txt_log := [];
  _ask_worker := None; _kb_worker := None; _upload_worker := None; _sync_worker := None;
  dialogs := []; started := [];
|}.

(** A runtime in which nothing is stored and every call succeeds with an
    empty answer. *)
Definition quiet : Runtime := {|
  World := unit; Client := unit; AgentT := unit; AgentResult := unit; Uploader := unit;
  PAPER_AGENT_PROMPT := "";
  format_exc := exn_str;
  str_result := fun _ => "";
  boto3 := Some (fun _ _ _ w => (w, Ok tt));
  get_knowledge_base := fun _ _ _ w => (w, Ok ∅);
  list_data_sources := fun _ _ _ w => (w, Ok ∅);
  import_strands := fun _ w => (w, Ok tt);
  Agent := fun _ _ _ _ w => (w, Ok tt);
  Agent_call := fun _ _ _ w => (w, Ok tt);
  PDFUploader := fun _ _ _ w => (w, Ok tt);
  upload_pdf := fun _ _ _ _ w => (w, Ok "");
  start_ingestion := fun _ _ w => (w, Ok tt);
|}.

(** A runtime without a network: no client and no uploader can be made. *)
Definition offline : Runtime := {|
  World := unit; Client := unit; AgentT := unit; AgentResult := unit; Uploader := unit;
  PAPER_AGENT_PROMPT := "";
  format_exc := exn_str;
  str_result := fun _ => "";
  boto3 := Some (fun _ _ _ w => (w, Raise (ClientError ∅ "Unable to connect")));
  get_knowledge_base := fun _ _ _ w => (w, Ok ∅);
  list_data_sources := fun _ _ _ w => (w, Ok ∅);
  import_strands := fun _ w => (w, Raise (Exception "No module named 'strands'"));
  Agent := fun _ _ _ _ w => (w, Ok tt);
  Agent_call := fun _ _ _ w => (w, Ok tt);
  PDFUploader := fun _ _ _ w => (w, Raise (Exception "Unable to locate credentials"));
  upload_pdf := fun _ _ _ _ w => (w, Ok "");
  start_ingestion := fun _ _ w => (w, Ok tt);
|}.

(** A process in which the guarded import of [boto3] failed. *)
Definition unloaded : Runtime := {|
  World := unit; Client := unit; AgentT := unit; AgentResult := unit; Uploader := unit;
  PAPER_AGENT_PROMPT := "";
  format_exc := exn_str;
  str_result := fun _ => "";
  boto3 := None;
  get_knowledge_base := fun _ _ _ w => (w, Ok ∅);
  list_data_sources := fun _ _ _ w => (w, Ok ∅);
  import_strands := fun _ w => (w, Ok tt);
  Agent := fun _ _ _ _ w => (w, Ok tt);
  Agent_call := fun _ _ _ w => (w, Ok tt);
  PDFUploader := fun _ _ _ w => (w, Ok tt);
  upload_pdf := fun _ _ _ _ w => (w, Ok "");
  start_ingestion := fun _ _ w => (w, Ok tt);
|}.

Definition unloaded0 : State unloaded :=
  {| world := (tt : World unloaded); environ := ∅; trace := [] |}.

Definition quiet0 : State quiet :=
  {| world := (tt : World quiet); environ := ∅; trace := [] |}.

Definition offline0 : State offline :=
  {| world := (tt : World offline); environ := ∅; trace := [] |}.

(** A window with every field filled in, some with white space around. *)
Definition ready : MainWindow := {|
  ed_region := " us-east-1"; ed_kb := "KB1 "; ed_bucket := "papers"; ed_prefix := "  ";
  cb_allow_web := true; ed_prompt := "What is IAM?"; txt_answer := "";
  list_files := ["a.pdf"; "b.pdf"]; txt_log := ["[선택] 2개 파일 추가"];
  _ask_worker := None; _kb_worker := None; _upload_worker := None; _sync_worker := None;
  dialogs := []; started := [];
|}.

End Demo.

(** * Properties *)

(** ** The slots guard their required fields *)

Lemma strip_empty : strip "" = "".
Proof. reflexivity. Qed.

Example strip_blank : strip "  	 " = "".
Proof. reflexivity. Qed.

(** An ideographic space in front, a no-break space behind. *)
Example strip_wide : strip "　KB 1 " = "KB 1".
Proof. reflexivity. Qed.

(** U+200B is not white space for [str.isspace]. *)
Example strip_zero_width : strip "​" = "​".
Proof. reflexivity. Qed.

(** With every required field present the slot starts exactly one worker
    and shows no box. *)
Lemma trigger_starts (k : op_kind) (w : MainWindow) :
  required_missing k w = false ->
  dialogs (trigger k w) = dialogs w /\
  exists wk, started (trigger k w) = started w ++ [wk].
Proof.
  destruct k; simpl; unfold on_validate_kb, on_ask, on_upload_files, on_sync_kb;
    intros H.
  - rewrite H. simpl. eauto.
  - apply orb_false_iff in H as [-> ->]. simpl. eauto.
  - apply orb_false_iff in H as [-> Hf]. apply bool_decide_eq_false in Hf.
    destruct (list_files w) eqn:E; [done|]. simpl. eauto.
  - rewrite H. simpl. eauto.
Qed.

(** C4: for each of validate, ask, upload and sync, when a required input is
    empty (the knowledge-base id for validate, ask and sync; the question for
    ask; the bucket or the file list for upload) the slot starts no thread,
    stores no worker, and shows exactly one modal box. *)
Theorem required_field_guard (k : op_kind) (w : MainWindow) :
  required_missing k w = true ->
  started (trigger k w) = started w /\
  worker_refs (trigger k w) = worker_refs w /\
  exists d, dialogs (trigger k w) = dialogs w ++ [d].
Proof.
  destruct k; simpl; unfold on_validate_kb, on_ask, on_upload_files, on_sync_kb;
    intros H.
  - rewrite H. simpl. eauto.
  - destruct (String.eqb (strip (ed_kb w)) ""); simpl in *; [eauto|].
    rewrite H. simpl. eauto.
  - destruct (String.eqb (strip (ed_bucket w)) ""); simpl in *; [eauto|].
    apply bool_decide_eq_true in H. rewrite H. simpl. eauto.
  - rewrite H. simpl. eauto.
Qed.

Lemma required_field_guard_witness :
  required_missing Ask Demo.window = true /\
  started (trigger Ask Demo.window) = started Demo.window /\
  worker_refs (trigger Ask Demo.window) = worker_refs Demo.window /\
  exists d, dialogs (trigger Ask Demo.window) = dialogs Demo.window ++ [d].
Proof.
  split; [reflexivity|].
  apply (required_field_guard Ask Demo.window). reflexivity.
Defined.

(** ** Traces *)

Section Traces.
Context {R : Runtime}.

Lemma emitted_app (t1 t2 : list (event R)) : emitted (t1 ++ t2) = emitted t1 ++ emitted t2.
Proof. apply omap_app. Qed.

Lemma called_app (t1 t2 : list (event R)) : called (t1 ++ t2) = called t1 ++ called t2.
Proof. apply omap_app. Qed.

Lemma emitted_nil : emitted ([] : list (event R)) = [].
Proof. reflexivity. Qed.

Lemma emitted_Emit (s : signal) (t : list (event R)) : emitted (Emit s :: t) = s :: emitted t.
Proof. reflexivity. Qed.

Lemma emitted_Call (c : call R) (t : list (event R)) : emitted (Call c :: t) = emitted t.
Proof. reflexivity. Qed.

Lemma called_nil : called ([] : list (event R)) = [].
Proof. reflexivity. Qed.

Lemma called_Call (c : call R) (t : list (event R)) : called (Call c :: t) = c :: called t.
Proof. reflexivity. Qed.

Lemma called_Emit (s : signal) (t : list (event R)) : called (Emit s :: t) = called t.
Proof. reflexivity. Qed.

Lemma append_sources_map (summaries : list (gmap string pyval)) (msg : list string) :
  append_sources msg summaries = msg ++ map source_line summaries.
Proof.
  unfold append_sources. revert msg.
  induction summaries as [|s l IH]; intros msg; simpl.
  - by rewrite app_nil_r.
  - rewrite IH, <- app_assoc. reflexivity.
Qed.

End Traces.

Ltac unfold_run :=
  unfold exec, KBValidateWorker_run, kb_body, kb_handler, AskWorker_run, ask_body,
    ask_handler, UploadWorker_run, upload_body, upload_handler, SyncWorker_run,
    sync_body, sync_handler, sync_knowledge_base, try_except, bind, extern, emit,
    subscript, setenv, ret, raise, log in *.

Arguments emitted : simpl never.
Arguments called : simpl never.

Create Rewrite HintDb trace.
#[export] Hint Rewrite @emitted_app @emitted_nil @emitted_Emit @emitted_Call
  @called_app @called_nil @called_Call @called_Emit @app_nil_r : trace.

(** Flatten the trace and read off its signals and calls. *)
Ltac tidy_trace :=
  repeat rewrite <- app_assoc; cbn [app];
  autorewrite with trace; cbn [app].

(** Case analysis on the answers of the oracles and on the tests of
    [setenv], one at a time, in program order. *)
(** Name the calls a run has added to the trace. *)
Ltac new_calls :=
  repeat rewrite <- app_assoc; cbn [app];
  match goal with
  | |- exists cs, called (?t ++ ?evs) = called ?t ++ cs /\ _ =>
      exists (called evs); split; [apply called_app | autorewrite with trace]
  | |- exists cs, called ?t = called ?t ++ cs /\ _ =>
      exists []; split; [symmetry; apply app_nil_r |]
  end.

Ltac oracle_cases :=
  repeat (simpl;
    match goal with
    | |- context [has_nul ?s] => destruct (has_nul s) eqn:?
    | |- context [negb (String.eqb ?s "")] => destruct (negb (String.eqb s "")) eqn:?
    | |- context [boto3_client ?R ?a ?b ?e ?w] =>
        destruct (boto3_client R a b e w) as [? [?|?]] eqn:?
    | |- context [get_knowledge_base ?R ?a ?b ?e ?w] =>
        destruct (get_knowledge_base R a b e w) as [? [?|?]] eqn:?
    | |- context [list_data_sources ?R ?a ?b ?e ?w] =>
        destruct (list_data_sources R a b e w) as [? [?|?]] eqn:?
    | |- context [import_strands ?R ?e ?w] =>
        destruct (import_strands R e w) as [? [[]|?]] eqn:?
    | |- context [Agent ?R ?a ?b ?c ?e ?w] =>
        destruct (Agent R a b c e w) as [? [?|?]] eqn:?
    | |- context [Agent_call ?R ?a ?b ?e ?w] =>
        destruct (Agent_call R a b e w) as [? [?|?]] eqn:?
    | |- context [PDFUploader ?R ?a ?b ?e ?w] =>
        destruct (PDFUploader R a b e w) as [? [?|?]] eqn:?
    | |- context [start_ingestion ?R ?a ?e ?w] =>
        destruct (start_ingestion R a e w) as [? [[]|?]] eqn:?
    | |- context [match ?d !! ?k with _ => _ end] => destruct (d !! k) eqn:?
    | |- context [ClientError_bound ?R] => destruct (ClientError_bound R) eqn:?
    | |- context [match ?e with ClientError _ _ => _ | _ => _ end] => destruct e
    end); simpl.

(** ** The health check *)

Section Health.
Context {R : Runtime}.

(** A client, or an error of the library, shows that [boto3] is bound. *)
Lemma boto3_answer_bound (service : string) (kwargs env : gmap string string)
    (w w' : World R) (r : result (Client R)) :
  boto3_client R service kwargs env w = (w', r) ->
  r <> Raise (NameError "boto3") ->
  ClientError_bound R = true.
Proof.
  unfold boto3_client, ClientError_bound. destruct (boto3 R); [done|].
  intros [= _ <-] H. by destruct H.
Qed.

Lemma boto3_unbound_raises (service : string) (kwargs env : gmap string string)
    (w : World R) :
  ClientError_bound R = false ->
  boto3_client R service kwargs env w = (w, Raise (NameError "boto3")).
Proof. unfold boto3_client, ClientError_bound. by destruct (boto3 R). Qed.

(** A health check whose requests succeed makes its three calls and emits
    the joined lines of [msg] once. *)
Lemma health_run_ok (st : State R) (kb_id : string) (region : option string)
    (status : pyval) (ds : gmap string (list (gmap string pyval))) :
  health_answers kb_id region st = Some (status, ds) ->
  exists c w kb,
    dict_get kb "status" = status /\
    KBValidateWorker_run kb_id region st =
      ({| world := w; environ := environ st;
          trace := trace st ++
            [Call (c_boto3_client "bedrock-agent" (session_kwargs region));
             Call (c_get_knowledge_base c kb_id);
             Call (c_list_data_sources c kb_id);
             Emit (finished (join nl (kb_lines kb_id kb ds)))] |}, Ok tt).
Proof.
  unfold health_answers. unfold_run.
  destruct (boto3_client R _ _ _ _) as [w1 [c|e]]; [|done]. simpl.
  destruct (get_knowledge_base R _ _ _ _) as [w2 [resp|e]]; [|done]. simpl.
  destruct (resp !! "knowledgeBase") as [kb'|]; [|done]. simpl.
  destruct (list_data_sources R _ _ _ _) as [w3 [ds'|e]]; [|done]. simpl.
  intros [= <- ->]. exists c, w3, kb'. split; [reflexivity|]. tidy_trace. reflexivity.
Qed.

(** Of the [knowledgeBase] dictionary only the status reaches the lines. *)
Lemma kb_lines_status (kb_id : string) (kb1 kb2 : gmap string pyval)
    (ds : gmap string (list (gmap string pyval))) :
  dict_get kb1 "status" = dict_get kb2 "status" ->
  kb_lines kb_id kb1 ds = kb_lines kb_id kb2 ds.
Proof. intros H. unfold kb_lines. by rewrite H. Qed.

(** The calls of a health check, whatever the service answers: the client,
    then at most one request of each kind. *)
Lemma health_calls (st : State R) (kb_id : string) (region : option string) :
  exists cs,
    called (trace (exec (KBValidateWorker_run kb_id region) st)) = called (trace st) ++ cs /\
    (cs = [c_boto3_client "bedrock-agent" (session_kwargs region)] \/
     exists c,
       cs = [c_boto3_client "bedrock-agent" (session_kwargs region);
             c_get_knowledge_base c kb_id] \/
       cs = [c_boto3_client "bedrock-agent" (session_kwargs region);
             c_get_knowledge_base c kb_id; c_list_data_sources c kb_id]).
Proof.
  unfold_run. oracle_cases; new_calls; eauto.
Qed.

(** The body of the health check emits nothing before it raises. *)
Lemma kb_body_raise_silent (st st1 : State R) (kb_id : string) (region : option string)
    (e : exn) :
  kb_body kb_id region st = (st1, Raise e) ->
  emitted (trace st1) = emitted (trace st) /\ environ st1 = environ st.
Proof.
  unfold_run. oracle_cases; intros [= <- ?]; simpl; by tidy_trace.
Qed.

End Health.

Section HealthClaims.
Context {R : Runtime}.

(** C6: when the index has no registered data source, the summary the health
    check emits carries the explicit line that there is none; when it has
    some, the summary gives their number and one line per data source with
    the name shown for it. *)
Theorem health_summary_sources (st : State R) (kb_id : string) (region : option string)
    (status : pyval) (ds : gmap string (list (gmap string pyval))) :
  health_answers kb_id region st = Some (status, ds) ->
  let summaries := default [] (ds !! "dataSourceSummaries") in
  let header := "[KB] ID=" +:+ kb_id +:+ ", 상태=" +:+ py_str status in
  let st' := exec (KBValidateWorker_run kb_id region) st in
  (summaries = [] ->
   emitted (trace st') = emitted (trace st) ++
     [finished (header +:+ nl +:+ "[KB] 데이터 소스: 없음 (S3 데이터 소스 추가 필요)")]) /\
  (summaries <> [] ->
   emitted (trace st') = emitted (trace st) ++
     [finished (join nl
        (header
         :: ("[KB] 데이터 소스: " +:+ pretty (length summaries) +:+ "개")
         :: map (fun s => " - " +:+ py_str (py_or (dict_get s "name") (dict_get s "dataSourceId")))
              summaries))]).
Proof.
  intros H summaries header st'.
  destruct (health_run_ok _ _ _ _ _ H) as (c & w & kb & Hstatus & Hrun).
  subst st'. unfold exec. rewrite Hrun. simpl. tidy_trace.
  unfold kb_lines. rewrite Hstatus. fold summaries. fold header.
  split; intros Hs.
  - rewrite Hs. reflexivity.
  - destruct summaries as [|s l] eqn:E; [done|].
    rewrite append_sources_map. reflexivity.
Qed.

(** C10: in the summary that the health check emits, the line of a listed
    data source (after the two head lines, in the order of the list) shows
    its [name]; when the name is missing or empty (or [None]) it shows the
    [dataSourceId] instead. *)
Theorem source_line_name (st : State R) (kb_id : string) (region : option string)
    (status : pyval) (ds : gmap string (list (gmap string pyval))) (i : nat)
    (s : gmap string pyval) :
  health_answers kb_id region st = Some (status, ds) ->
  default [] (ds !! "dataSourceSummaries") !! i = Some s ->
  let st' := exec (KBValidateWorker_run kb_id region) st in
  exists lines shown,
    emitted (trace st') = emitted (trace st) ++ [finished (join nl lines)] /\
    length lines = 2 + length (default [] (ds !! "dataSourceSummaries")) /\
    lines !! (2 + i) = Some (" - " +:+ shown) /\
    (forall n, s !! "name" = Some (PyStr n) -> n <> "" -> shown = n) /\
    (s !! "name" = None \/ s !! "name" = Some PyNone \/ s !! "name" = Some (PyStr "") ->
     shown = py_str (dict_get s "dataSourceId") /\
     forall d, s !! "dataSourceId" = Some (PyStr d) -> shown = d).
Proof.
  intros H Hi st'.
  destruct (health_run_ok _ _ _ _ _ H) as (c & w & kb & Hstatus & Hrun).
  exists (kb_lines kb_id kb ds),
    (py_str (py_or (dict_get s "name") (dict_get s "dataSourceId"))).
  split; [|split; [|split; [|split]]].
  - subst st'. unfold exec. rewrite Hrun. simpl. by tidy_trace.
  - unfold kb_lines.
    destruct (default [] (ds !! "dataSourceSummaries")) as [|s0 l] eqn:E; [done|].
    rewrite append_sources_map. simpl. by rewrite length_map.
  - unfold kb_lines.
    destruct (default [] (ds !! "dataSourceSummaries")) as [|s0 l] eqn:E; [done|].
    rewrite append_sources_map. simpl.
    change (map source_line (s0 :: l) !! i = Some (source_line s)).
    rewrite list_lookup_fmap, Hi. reflexivity.
  - intros n Hn Hne. unfold py_or, dict_get. rewrite Hn. simpl.
    destruct (String.eqb_spec n ""); [done|]. reflexivity.
  - intros Hn. assert (py_or (dict_get s "name") (dict_get s "dataSourceId")
                       = dict_get s "dataSourceId") as ->.
    { unfold py_or, dict_get at 1. destruct Hn as [-> | [-> | ->]]; reflexivity. }
    split; [reflexivity|]. intros d Hd. unfold dict_get. rewrite Hd. reflexivity.
Qed.

(** C9: two health checks for the same knowledge-base id and region to which
    the service gives the same status and data-source answers emit the same
    summary text, whatever else differs between the two states. *)
Theorem health_summary_repeatable (st1 st2 : State R) (kb_id : string)
    (region : option string)
    (answers : pyval * gmap string (list (gmap string pyval))) :
  health_answers kb_id region st1 = Some answers ->
  health_answers kb_id region st2 = Some answers ->
  exists text,
    emitted (trace (exec (KBValidateWorker_run kb_id region) st1))
      = emitted (trace st1) ++ [finished text] /\
    emitted (trace (exec (KBValidateWorker_run kb_id region) st2))
      = emitted (trace st2) ++ [finished text].
Proof.
  destruct answers as [status ds]. intros H1 H2.
  destruct (health_run_ok _ _ _ _ _ H1) as (c1 & w1 & kb1 & Hst1 & Hrun1).
  destruct (health_run_ok _ _ _ _ _ H2) as (c2 & w2 & kb2 & Hst2 & Hrun2).
  exists (join nl (kb_lines kb_id kb1 ds)).
  unfold exec. rewrite Hrun1, Hrun2. simpl. tidy_trace.
  split; [reflexivity|].
  rewrite (kb_lines_status kb_id kb2 kb1 ds) by congruence. reflexivity.
Qed.

(** With [boto3] and [ClientError] bound, a failure of the health check is
    surfaced: a [ClientError] is shown with the code of its response and its
    message, any other exception with its message and the trace of
    [format_exc]; the one [failed] signal is all that happens after the
    failure: no further call, no second attempt. *)
Lemma health_failure_rendered (st st1 : State R) (kb_id : string)
    (region : option string) (e : exn) :
  ClientError_bound R = true ->
  kb_body kb_id region st = (st1, Raise e) ->
  let st' := exec (KBValidateWorker_run kb_id region) st in
  exists text,
    trace st' = trace st1 ++ [Emit (failed text)] /\
    world st' = world st1 /\
    emitted (trace st') = emitted (trace st) ++ [failed text] /\
    (forall response msg code,
       e = ClientError response msg ->
       response !! "Error" ≫= (.!! "Code") = Some (PyStr code) ->
       text = "[KB 점검 실패] " +:+ code +:+ ": " +:+ msg) /\
    ((forall response msg, e <> ClientError response msg) ->
     text = "[KB 점검 실패] " +:+ exn_str e +:+ nl +:+ format_exc R e) /\
    exists cs,
      called (trace st') = called (trace st) ++ cs /\
      (cs = [c_boto3_client "bedrock-agent" (session_kwargs region)] \/
       exists c,
         cs = [c_boto3_client "bedrock-agent" (session_kwargs region);
               c_get_knowledge_base c kb_id] \/
         cs = [c_boto3_client "bedrock-agent" (session_kwargs region);
               c_get_knowledge_base c kb_id; c_list_data_sources c kb_id]).
Proof.
  intros Hb H st'.
  destruct (kb_body_raise_silent _ _ _ _ _ H) as [Hsilent _].
  pose proof (health_calls st kb_id region) as Hcalls. fold st' in Hcalls.
  assert (st' = exec (kb_handler e) st1) as Hst'.
  { subst st'. unfold exec, KBValidateWorker_run, try_except. by rewrite H. }
  rewrite Hst' in *. unfold exec, kb_handler in *. rewrite Hb in *.
  destruct e as [response msg | key | name | msg]; unfold emit, log in *; simpl in *.
  - exists ("[KB 점검 실패] " +:+ py_str (dict_get (default ∅ (response !! "Error")) "Code")
            +:+ ": " +:+ msg).
    split; [done|]. split; [done|]. split; [tidy_trace; by rewrite Hsilent|].
    split; [|split; [|exact Hcalls]].
    + intros response' msg' code [= <- <-] Hcode.
      unfold dict_get. destruct (response !! "Error") as [err|]; simpl in *; [|done].
      rewrite Hcode. reflexivity.
    + intros Hne. by destruct (Hne response msg).
  - eexists. split; [reflexivity|]. split; [done|].
    split; [tidy_trace; by rewrite Hsilent|]. split; [done|]. split; [done|exact Hcalls].
  - eexists. split; [reflexivity|]. split; [done|].
    split; [tidy_trace; by rewrite Hsilent|]. split; [done|]. split; [done|exact Hcalls].
  - eexists. split; [reflexivity|]. split; [done|].
    split; [tidy_trace; by rewrite Hsilent|]. split; [done|]. split; [done|exact Hcalls].
Qed.

(** C5, where the code parts from it: when the guarded import of [boto3]
    failed, the health check fails on the unbound name [boto3], and
    [except ClientError] fails in turn on the unbound name [ClientError]:
    [run] ends with that [NameError] and no signal, so the failure is not
    rendered at all. *)
Theorem health_failure_escapes (st : State R) (kb_id : string) (region : option string) :
  boto3 R = None ->
  let r := KBValidateWorker_run kb_id region st in
  (exists st1, kb_body kb_id region st = (st1, Raise (NameError "boto3"))) /\
  snd r = Raise (NameError "ClientError") /\
  emitted (trace (fst r)) = emitted (trace st).
Proof.
  intros Hb r. subst r.
  unfold KBValidateWorker_run, kb_body, kb_handler, try_except, bind, extern, raise,
    boto3_client, ClientError_bound.
  rewrite Hb. simpl. split; [eauto|]. split; [reflexivity|]. by tidy_trace.
Qed.

End HealthClaims.

Lemma health_summary_sources_witness :
  health_answers "KB0" (Some "us-east-1") Demo.st0 = Some (PyStr "ACTIVE", ∅) /\
  emitted (trace (exec (KBValidateWorker_run "KB0" (Some "us-east-1")) Demo.st0))
    = [finished ("[KB] ID=KB0, 상태=ACTIVE" +:+ nl
                 +:+ "[KB] 데이터 소스: 없음 (S3 데이터 소스 추가 필요)")].
Proof.
  split; [reflexivity|].
  destruct (health_summary_sources Demo.st0 "KB0" (Some "us-east-1")
              (PyStr "ACTIVE") ∅) as [Hnone _].
  - reflexivity.
  - apply Hnone. reflexivity.
Defined.

Lemma source_line_name_witness :
  let ds : gmap string (list (gmap string pyval)) :=
    {[ "dataSourceSummaries" := Demo.sources1 ]} in
  let s : gmap string pyval := {[ "dataSourceId" := PyStr "DS2" ]} in
  let st' := exec (KBValidateWorker_run "KB1" (Some "us-east-1")) Demo.st0 in
  health_answers "KB1" (Some "us-east-1") Demo.st0 = Some (PyStr "ACTIVE", ds) /\
  default [] (ds !! "dataSourceSummaries") !! 1 = Some s /\
  s !! "name" = None /\
  s !! "dataSourceId" = Some (PyStr "DS2") /\
  exists lines,
    emitted (trace st') = emitted (trace Demo.st0) ++ [finished (join nl lines)] /\
    length lines = 2 + length (default [] (ds !! "dataSourceSummaries")) /\
    lines !! (2 + 1) = Some (" - " +:+ "DS2").
Proof.
  intros ds s st'.
  split; [reflexivity|]. split; [reflexivity|]. split; [reflexivity|].
  split; [reflexivity|].
  destruct (source_line_name Demo.st0 "KB1" (Some "us-east-1") (PyStr "ACTIVE") ds 1 s
              eq_refl eq_refl) as (lines & shown & Hsig & Hlen & Hline & _ & Hid).
  destruct (Hid (or_introl eq_refl)) as [_ Hshown].
  exists lines. split; [exact Hsig|]. split; [exact Hlen|].
  rewrite <- (Hshown "DS2" eq_refl). exact Hline.
Defined.

Lemma health_summary_repeatable_witness :
  let st2 := exec (KBValidateWorker_run "KB1" (Some "us-east-1")) Demo.st0 in
  let answers : pyval * gmap string (list (gmap string pyval)) :=
    (PyStr "ACTIVE", {[ "dataSourceSummaries" := Demo.sources1 ]}) in
  health_answers "KB1" (Some "us-east-1") Demo.st0 = Some answers /\
  health_answers "KB1" (Some "us-east-1") st2 = Some answers /\
  exists text,
    emitted (trace (exec (KBValidateWorker_run "KB1" (Some "us-east-1")) Demo.st0))
      = emitted (trace Demo.st0) ++ [finished text] /\
    emitted (trace (exec (KBValidateWorker_run "KB1" (Some "us-east-1")) st2))
      = emitted (trace st2) ++ [finished text].
Proof.
  intros st2 answers.
  split; [reflexivity|]. split; [reflexivity|].
  apply (health_summary_repeatable Demo.st0 st2 "KB1" (Some "us-east-1") answers);
    reflexivity.
Defined.

Lemma health_failure_escapes_witness :
  let r := KBValidateWorker_run "KB1" None Demo.unloaded0 in
  boto3 Demo.unloaded = None /\
  (exists st1, kb_body "KB1" None Demo.unloaded0 = (st1, Raise (NameError "boto3"))) /\
  snd r = Raise (NameError "ClientError") /\
  emitted (trace (fst r)) = emitted (trace Demo.unloaded0).
Proof.
  intros r. split; [reflexivity|].
  apply (health_failure_escapes Demo.unloaded0 "KB1" None). reflexivity.
Defined.

(** ** The query dispatcher *)

Section AskClaims.
Context {R : Runtime}.

Lemma ask_tools_spec (allow_web : bool) :
  retrieve ∈ ask_tools allow_web /\ (http_request ∈ ask_tools allow_web <-> allow_web = true).
Proof.
  destruct allow_web; unfold ask_tools; simpl.
  - split; [apply elem_of_cons; by left|]. split; [done|]. intros _.
    apply elem_of_cons; right. apply elem_of_cons; by left.
  - split; [apply elem_of_cons; by left|]. split; [|done]. intros H.
    apply list_elem_of_singleton in H. discriminate.
Qed.

(** The calls of [AskWorker.run]: nothing when an assignment to [os.environ]
    fails, else the import, then the agent with the tools list, then the
    question. *)
Lemma ask_calls (st : State R) (kb_id : string) (region : option string) (prompt : string)
    (allow_web : bool) :
  exists cs,
    called (trace (exec (AskWorker_run kb_id region prompt allow_web) st))
      = called (trace st) ++ cs /\
    (cs = [] \/ cs = [c_import_strands] \/
     exists rest,
       cs = c_import_strands
            :: c_Agent "us.amazon.nova-lite-v1:0" (PAPER_AGENT_PROMPT R) (ask_tools allow_web)
            :: rest /\
       (rest = [] \/ exists a, rest = [c_Agent_call a prompt])).
Proof.
  unfold_run. destruct region as [r|]; oracle_cases; new_calls; eauto 8.
Qed.

End AskClaims.

Section AskCapabilities.
Context {R : Runtime}.

(** Once the assignments to [os.environ] and the import have succeeded, the
    agent is constructed. *)
Lemma ask_reaches_agent (st : State R) (kb_id : string) (region : option string)
    (prompt : string) (allow_web : bool) (w : World R) :
  has_nul kb_id = false ->
  (forall r, region = Some r -> has_nul r = false) ->
  import_strands R (ask_environ kb_id region (environ st)) (world st) = (w, Ok tt) ->
  exists rest,
    called (trace (exec (AskWorker_run kb_id region prompt allow_web) st))
      = called (trace st)
        ++ c_import_strands
           :: c_Agent "us.amazon.nova-lite-v1:0" (PAPER_AGENT_PROMPT R) (ask_tools allow_web)
           :: rest.
Proof.
  intros Hkb Hreg Himp. unfold ask_environ in Himp. unfold_run. rewrite Hkb. simpl.
  destruct region as [r|]; simpl in *.
  - destruct (negb (String.eqb r "")) eqn:Er; simpl.
    + rewrite (Hreg r eq_refl). simpl. rewrite Himp. simpl.
      destruct (Agent R _ _ _ _ _) as [w1 [a|e]]; simpl.
      * destruct (Agent_call R _ _ _ _) as [w2 [resp|e]]; simpl;
          eexists; tidy_trace; reflexivity.
      * eexists; tidy_trace; reflexivity.
    + rewrite Himp. simpl.
      destruct (Agent R _ _ _ _ _) as [w1 [a|e]]; simpl.
      * destruct (Agent_call R _ _ _ _) as [w2 [resp|e]]; simpl;
          eexists; tidy_trace; reflexivity.
      * eexists; tidy_trace; reflexivity.
  - rewrite Himp. simpl.
    destruct (Agent R _ _ _ _ _) as [w1 [a|e]]; simpl.
    + destruct (Agent_call R _ _ _ _) as [w2 [resp|e]]; simpl;
        eexists; tidy_trace; reflexivity.
    + eexists; tidy_trace; reflexivity.
Qed.

(** C1: every agent that [AskWorker.run] constructs is given a tools list
    that contains [retrieve], and contains [http_request] exactly when
    [allow_web] is set; and the agent is constructed whenever the run gets
    past its environment assignments and its import. *)
Theorem ask_capabilities (st : State R) (kb_id : string) (region : option string)
    (prompt : string) (allow_web : bool) :
  let st' := exec (AskWorker_run kb_id region prompt allow_web) st in
  exists cs,
    called (trace st') = called (trace st) ++ cs /\
    (forall model system_prompt tools,
       c_Agent model system_prompt tools ∈ cs ->
       retrieve ∈ tools /\ (http_request ∈ tools <-> allow_web = true)) /\
    (forall w,
       has_nul kb_id = false ->
       (forall r, region = Some r -> has_nul r = false) ->
       import_strands R (ask_environ kb_id region (environ st)) (world st) = (w, Ok tt) ->
       exists tools, c_Agent "us.amazon.nova-lite-v1:0" (PAPER_AGENT_PROMPT R) tools ∈ cs).
Proof.
  intros st'.
  destruct (ask_calls st kb_id region prompt allow_web) as (cs & Hcs & Hshape).
  fold st' in Hcs. exists cs. split; [exact Hcs|]. split.
  - intros model sp tools Hin.
    assert (tools = ask_tools allow_web) as ->.
    { destruct Hshape as [-> | [-> | (rest & -> & Hrest)]].
      - by apply elem_of_nil in Hin.
      - apply list_elem_of_singleton in Hin. discriminate.
      - apply elem_of_cons in Hin as [Hin | Hin]; [discriminate|].
        apply elem_of_cons in Hin as [Hin | Hin]; [by injection Hin|].
        destruct Hrest as [-> | [a ->]].
        + by apply elem_of_nil in Hin.
        + apply list_elem_of_singleton in Hin. discriminate. }
    apply ask_tools_spec.
  - intros w Hkb Hreg Himp.
    destruct (ask_reaches_agent st kb_id region prompt allow_web w Hkb Hreg Himp)
      as (rest & Hrest).
    fold st' in Hrest. rewrite Hcs in Hrest. apply app_inv_head in Hrest. subst cs.
    exists (ask_tools allow_web). apply elem_of_cons; right. apply elem_of_cons; by left.
Qed.

End AskCapabilities.

Lemma ask_capabilities_witness :
  let st' := exec (AskWorker_run "KB1" (Some "us-east-1") "What is IAM?" true) Demo.st0 in
  has_nul "KB1" = false /\
  (forall r, Some "us-east-1" = Some r -> has_nul r = false) /\
  import_strands Demo.runtime
    (ask_environ "KB1" (Some "us-east-1") (environ Demo.st0)) (world Demo.st0)
    = ([], Ok tt) /\
  exists cs tools,
    called (trace st') = called (trace Demo.st0) ++ cs /\
    c_Agent "us.amazon.nova-lite-v1:0" (PAPER_AGENT_PROMPT Demo.runtime) tools ∈ cs /\
    retrieve ∈ tools /\ (http_request ∈ tools <-> true = true).
Proof.
  intros st'.
  assert (forall r, Some "us-east-1" = Some r -> has_nul r = false) as Hreg.
  { intros r [= <-]. reflexivity. }
  split; [reflexivity|]. split; [exact Hreg|]. split; [reflexivity|].
  destruct (ask_capabilities Demo.st0 "KB1" (Some "us-east-1") "What is IAM?" true)
    as (cs & Hcs & Htools & Hreach).
  destruct (Hreach [] eq_refl Hreg eq_refl) as (tools & Hin).
  exists cs, tools. split; [exact Hcs|]. split; [exact Hin|].
  exact (Htools _ _ _ Hin).
Defined.

(** ** The upload coordinator *)

Section UploadLoop.
Context {R : Runtime}.

Lemma transfer_all_length (u : Uploader R) (prefix : string) (env : gmap string string)
    (files : list string) :
  forall w w' uris err,
    transfer_all u prefix files env w = (w', uris, err) ->
    match err with
    | None => length uris = length files
    | Some _ => length uris < length files
    end.
Proof.
  induction files as [|f rest IH]; intros w w' uris err; simpl.
  - intros [= <- <- <-]. reflexivity.
  - destruct (upload_pdf R u f prefix env w) as [w1 [uri|e]].
    + destruct (transfer_all u prefix rest env w1) as [[w2 uris'] err'] eqn:E.
      intros [= <- <- <-]. specialize (IH _ _ _ _ E). destruct err'; simpl; lia.
    + intros [= <- <- <-]. simpl. lia.
Qed.

(** The loop follows the transfers: it leaves their world, logs their events
    after the trace so far, and returns the locators or raises the error. *)
Lemma upload_loop_spec (u : Uploader R) (prefix : string) (files : list string) :
  forall uploaded st w' uris err,
    transfer_all u prefix files (environ st) (world st) = (w', uris, err) ->
    upload_loop u prefix files uploaded st =
      ({| world := w'; environ := environ st;
          trace := trace st ++ loop_events u prefix files uris |},
       match err with
       | None => Ok (uploaded ++ uris)
       | Some e => Raise e
       end).
Proof.
  induction files as [|f rest IH]; intros uploaded st w' uris err; simpl.
  - intros [= <- <- <-]. destruct st; unfold ret; simpl. by rewrite !app_nil_r.
  - unfold bind at 1, emit at 1, log; simpl. unfold bind at 1, extern at 1; simpl.
    destruct (upload_pdf R u f prefix (environ st) (world st)) as [w1 [uri|e]].
    + destruct (transfer_all u prefix rest (environ st) w1) as [[w2 uris'] err'] eqn:E.
      intros [= <- <- <-].
      unfold bind at 1, emit at 1, log; simpl.
      rewrite (IH _ _ w2 uris' err'); [|exact E]. simpl.
      f_equal.
      * f_equal. by rewrite <- !app_assoc.
      * destruct err'; [done|]. by rewrite <- app_assoc.
    + intros [= <- <- <-]. simpl. by rewrite <- app_assoc.
Qed.

Lemma emitted_loop_events (u : Uploader R) (prefix : string) (files : list string) :
  forall uris,
    emitted (loop_events u prefix files uris) =
      flat_map file_notes (zip (take (length uris) files) uris)
      ++ match files !! length uris with
         | Some f => [progress ("[업로드] " +:+ f +:+ " ...")]
         | None => []
         end.
Proof.
  induction files as [|f rest IH]; intros [|uri uris]; simpl;
    autorewrite with trace; try reflexivity.
  rewrite IH. reflexivity.
Qed.

Lemma called_loop_events (u : Uploader R) (prefix : string) (files : list string) :
  forall uris,
    called (loop_events u prefix files uris) =
      map (fun f => c_upload_pdf u f prefix) (take (S (length uris)) files).
Proof.
  induction files as [|f rest IH]; intros [|uri uris]; simpl;
    autorewrite with trace; try reflexivity.
  rewrite IH. reflexivity.
Qed.

(** The run of the upload worker once the uploader object exists. *)
Lemma upload_run_spec (st : State R) (bucket : string) (kb_id : option string)
    (prefix : string) (files : list string) (u : Uploader R) (w0 w' : World R)
    (uris : list string) (err : option exn) :
  PDFUploader R bucket kb_id (environ st) (world st) = (w0, Ok u) ->
  transfer_all u prefix files (environ st) w0 = (w', uris, err) ->
  exec (UploadWorker_run bucket kb_id prefix files) st =
    {| world := w'; environ := environ st;
       trace := trace st ++ Call (c_PDFUploader bucket kb_id)
                :: loop_events u prefix files uris
                ++ [Emit match err with
                         | None => finished ("총 " +:+ pretty (length uris) +:+ "개 업로드 완료")
                         | Some e => failed ("[업로드 실패] " +:+ exn_str e +:+ nl
                                             +:+ format_exc R e)
                         end] |}.
Proof.
  intros Hnew Hall.
  unfold exec, UploadWorker_run, upload_body, upload_handler, try_except.
  unfold bind at 1, extern at 1. rewrite Hnew. simpl.
  unfold bind at 1.
  rewrite (upload_loop_spec u prefix files [] _ w' uris err); [|exact Hall].
  destruct err as [e|]; unfold emit, log; simpl; by rewrite <- !app_assoc.
Qed.

Lemma upload_run_result (st : State R) (bucket : string) (kb_id : option string)
    (prefix : string) (files : list string) :
  snd (UploadWorker_run bucket kb_id prefix files st) = Ok tt.
Proof.
  unfold UploadWorker_run, upload_body, upload_handler, try_except.
  unfold bind at 1, extern at 1.
  destruct (PDFUploader R bucket kb_id (environ st) (world st)) as [w0 [u|e]]; simpl;
    [|reflexivity].
  unfold bind at 1.
  match goal with
  | |- context [upload_loop u prefix files [] ?s] =>
      destruct (transfer_all u prefix files (environ s) (world s)) as [[w' uris] err] eqn:E;
      rewrite (upload_loop_spec u prefix files [] s w' uris err E)
  end.
  by destruct err.
Qed.

End UploadLoop.

Section UploadClaims.
Context {R : Runtime}.

(** C3: when the transfer of every one of the N files succeeds, the upload
    worker emits, for each file in the order of the list, its start note and
    then its completion note, and after them one [finished] signal that
    reports N; it emits nothing else. *)
Theorem upload_all_succeed (st : State R) (bucket : string) (kb_id : option string)
    (prefix : string) (files : list string) (u : Uploader R) (w0 w' : World R)
    (uris : list string) :
  PDFUploader R bucket kb_id (environ st) (world st) = (w0, Ok u) ->
  transfer_all u prefix files (environ st) w0 = (w', uris, None) ->
  let st' := exec (UploadWorker_run bucket kb_id prefix files) st in
  length uris = length files /\
  emitted (trace st') =
    emitted (trace st)
    ++ flat_map file_notes (zip files uris)
    ++ [finished ("총 " +:+ pretty (length files) +:+ "개 업로드 완료")] /\
  length (flat_map file_notes (zip files uris)) = 2 * length files.
Proof.
  intros Hnew Hall st'.
  pose proof (transfer_all_length _ _ _ _ _ _ _ _ Hall) as Hlen. simpl in Hlen.
  split; [exact Hlen|]. split.
  - subst st'. rewrite (upload_run_spec st _ _ _ _ u w0 w' uris None Hnew Hall). simpl.
    autorewrite with trace. rewrite emitted_loop_events.
    rewrite Hlen, firstn_all, lookup_ge_None_2 by lia.
    by rewrite app_nil_r.
  - clear -Hlen. revert uris Hlen.
    induction files as [|f rest IH]; intros [|uri uris] Hlen; simpl in *; try done.
    rewrite IH by lia. lia.
Qed.

(** C2: when the transfers of the first k-1 files succeed and the transfer
    of file k fails, the upload worker emits the start and completion notes
    of files 1..k-1, the start note of file k, and one [failed] signal with
    the error; it calls [upload_pdf] for files 1..k only, and leaves the
    world as those transfers left it. *)
Theorem upload_failure_stops (st : State R) (bucket : string) (kb_id : option string)
    (prefix : string) (files : list string) (u : Uploader R) (w0 w' : World R)
    (uris : list string) (e : exn) :
  PDFUploader R bucket kb_id (environ st) (world st) = (w0, Ok u) ->
  transfer_all u prefix files (environ st) w0 = (w', uris, Some e) ->
  let st' := exec (UploadWorker_run bucket kb_id prefix files) st in
  let done := length uris in
  exists f,
    files !! done = Some f /\
    emitted (trace st') =
      emitted (trace st)
      ++ flat_map file_notes (zip (take done files) uris)
      ++ [progress ("[업로드] " +:+ f +:+ " ...");
          failed ("[업로드 실패] " +:+ exn_str e +:+ nl +:+ format_exc R e)] /\
    called (trace st') =
      called (trace st)
      ++ c_PDFUploader bucket kb_id
         :: map (fun f => c_upload_pdf u f prefix) (take (S done) files) /\
    world st' = w'.
Proof.
  intros Hnew Hall st' done.
  pose proof (transfer_all_length _ _ _ _ _ _ _ _ Hall) as Hlen. simpl in Hlen.
  destruct (lookup_lt_is_Some_2 files done Hlen) as [f Hf].
  exists f. split; [exact Hf|].
  subst st'. rewrite (upload_run_spec st _ _ _ _ u w0 w' uris (Some e) Hnew Hall). simpl.
  split; [|split; [|reflexivity]].
  - autorewrite with trace. rewrite emitted_loop_events.
    fold done. rewrite Hf. by rewrite <- app_assoc.
  - autorewrite with trace. by rewrite called_loop_events.
Qed.

End UploadClaims.

Lemma upload_all_succeed_witness :
  let files := ["a.pdf"; "b.pdf"] in
  let uris := ["s3://papers/documents/a.pdf"; "s3://papers/documents/b.pdf"] in
  let st' := exec (UploadWorker_run "papers" None "documents/" files) Demo.st0 in
  PDFUploader Demo.runtime "papers" None (environ Demo.st0) (world Demo.st0)
    = ([], Ok ("papers", None)) /\
  transfer_all (R := Demo.runtime) ("papers", None) "documents/" files (environ Demo.st0) []
    = (uris, uris, None) /\
  length uris = length files /\
  emitted (trace st') =
    emitted (trace Demo.st0)
    ++ flat_map file_notes (zip files uris)
    ++ [finished ("총 " +:+ pretty (length files) +:+ "개 업로드 완료")] /\
  length (flat_map file_notes (zip files uris)) = 2 * length files.
Proof.
  intros files uris st'.
  split; [reflexivity|]. split; [reflexivity|].
  apply (upload_all_succeed Demo.st0 "papers" None "documents/" files
           ("papers", None) [] uris uris); reflexivity.
Defined.

Lemma upload_failure_stops_witness :
  let files := ["a.pdf"; "missing.pdf"; "c.pdf"] in
  let uris := ["s3://papers/documents/a.pdf"] in
  let e := Exception "No such file" in
  let st' := exec (UploadWorker_run "papers" None "documents/" files) Demo.st0 in
  PDFUploader Demo.runtime "papers" None (environ Demo.st0) (world Demo.st0)
    = ([], Ok ("papers", None)) /\
  transfer_all (R := Demo.runtime) ("papers", None) "documents/" files (environ Demo.st0) []
    = (uris, uris, Some e) /\
  exists f,
    files !! 1 = Some f /\
    emitted (trace st') =
      emitted (trace Demo.st0)
      ++ flat_map file_notes (zip (take 1 files) uris)
      ++ [progress ("[업로드] " +:+ f +:+ " ...");
          failed ("[업로드 실패] " +:+ exn_str e +:+ nl +:+ format_exc Demo.runtime e)] /\
    called (trace st') =
      called (trace Demo.st0)
      ++ c_PDFUploader "papers" None
         :: map (fun f => c_upload_pdf (R := Demo.runtime) ("papers", None) f "documents/")
              (take 2 files) /\
    world st' = uris.
Proof.
  intros files uris e st'.
  split; [reflexivity|]. split; [reflexivity|].
  apply (upload_failure_stops Demo.st0 "papers" None "documents/" files
           ("papers", None) [] uris uris e); reflexivity.
Defined.

(** ** The sync trigger *)

Section SyncClaims.
Context {R : Runtime}.

(** C8: the sync worker makes one re-index request and stops there: the
    world it leaves is the world in which the request was accepted or
    refused, with no later call to the service.  When the request is
    accepted it emits only the fixed note that the request went out and that
    completion takes minutes; when the uploader cannot be made or the
    request is refused it emits the error text with its trace, and asks no
    second time. *)
Theorem sync_reports_acceptance (st : State R) (kb_id : string) :
  let st' := exec (SyncWorker_run kb_id) st in
  let new_uploader := c_PDFUploader "dummy" (Some kb_id) in
  (forall w0 u w1,
     PDFUploader R "dummy" (Some kb_id) (environ st) (world st) = (w0, Ok u) ->
     start_ingestion R u (environ st) w0 = (w1, Ok tt) ->
     world st' = w1 /\
     called (trace st') = called (trace st) ++ [new_uploader; c_start_ingestion u] /\
     emitted (trace st') =
       emitted (trace st) ++ [finished "KB 동기화 작업 시작 요청 완료 (완료까지 수 분 소요)"]) /\
  (forall w0 u w1 e,
     PDFUploader R "dummy" (Some kb_id) (environ st) (world st) = (w0, Ok u) ->
     start_ingestion R u (environ st) w0 = (w1, Raise e) ->
     world st' = w1 /\
     called (trace st') = called (trace st) ++ [new_uploader; c_start_ingestion u] /\
     emitted (trace st') =
       emitted (trace st)
       ++ [failed ("[동기화 실패] " +:+ exn_str e +:+ nl +:+ format_exc R e)]) /\
  (forall w0 e,
     PDFUploader R "dummy" (Some kb_id) (environ st) (world st) = (w0, Raise e) ->
     world st' = w0 /\
     called (trace st') = called (trace st) ++ [new_uploader] /\
     emitted (trace st') =
       emitted (trace st)
       ++ [failed ("[동기화 실패] " +:+ exn_str e +:+ nl +:+ format_exc R e)]).
Proof.
  intros st' new_uploader. subst st' new_uploader.
  split; [|split].
  - intros w0 u w1 Hnew Hstart. unfold_run. rewrite Hnew. simpl. rewrite Hstart. simpl.
    by tidy_trace.
  - intros w0 u w1 e Hnew Hstart. unfold_run. rewrite Hnew. simpl. rewrite Hstart. simpl.
    by tidy_trace.
  - intros w0 e Hnew. unfold_run. rewrite Hnew. simpl.
    by tidy_trace.
Qed.

End SyncClaims.

Lemma sync_reports_acceptance_witness :
  let st' := exec (SyncWorker_run "KB1") Demo.st0 in
  PDFUploader Demo.runtime "dummy" (Some "KB1") (environ Demo.st0) (world Demo.st0)
    = ([], Ok ("dummy", Some "KB1")) /\
  start_ingestion Demo.runtime ("dummy", Some "KB1") (environ Demo.st0) []
    = (["ingestion STARTING"], Ok tt) /\
  world st' = ["ingestion STARTING"] /\
  called (trace st') =
    called (trace Demo.st0)
    ++ [c_PDFUploader "dummy" (Some "KB1");
        c_start_ingestion (R := Demo.runtime) ("dummy", Some "KB1")] /\
  emitted (trace st') =
    emitted (trace Demo.st0) ++ [finished "KB 동기화 작업 시작 요청 완료 (완료까지 수 분 소요)"].
Proof.
  intros st'.
  split; [reflexivity|]. split; [reflexivity|].
  destruct (sync_reports_acceptance Demo.st0 "KB1") as [Hok _].
  apply (Hok [] ("dummy", Some "KB1") ["ingestion STARTING"]); reflexivity.
Defined.

(** ** What the workers share *)

Section Environment.
Context {R : Runtime}.






Lemma ask_environ_written (st : State R) (kb_id : string) (region : option string)
    (prompt : string) (allow_web : bool) :
  has_nul kb_id = false ->
  (forall r, region = Some r -> has_nul r = false) ->
  environ (exec (AskWorker_run kb_id region prompt allow_web) st)
    = ask_environ kb_id region (environ st).
Proof.
  intros Hkb Hreg. unfold ask_environ. unfold_run. rewrite Hkb. simpl.
  destruct region as [r|]; simpl.
  - destruct (negb (String.eqb r "")); simpl.
    + rewrite (Hreg r eq_refl). oracle_cases; reflexivity.
    + oracle_cases; reflexivity.
  - oracle_cases; reflexivity.
Qed.



End Environment.



(** * Further properties of the window *)

Lemma or_None_nonempty (s : string) : nonempty_opt (or_None s) = true.
Proof. unfold or_None, nonempty_opt, nonempty. by destruct (String.eqb s "") eqn:E; [|rewrite E]. Qed.

Lemma default_prefix_nonempty (s : string) :
  nonempty (default "documents/" (or_None s)) = true.
Proof. unfold or_None, nonempty. by destruct (String.eqb s "") eqn:E; simpl; [|rewrite E]. Qed.

(** A slot whose guard fires only shows its box. *)
Lemma trigger_guarded (k : op_kind) (w : MainWindow) :
  required_missing k w = true -> exists d, trigger k w = show d w.
Proof.
  destruct k; simpl; unfold on_validate_kb, on_ask, on_upload_files, on_sync_kb;
    intros H.
  - rewrite H. eauto.
  - destruct (String.eqb (strip (ed_kb w)) ""); simpl in *; [eauto|]. rewrite H. eauto.
  - destruct (String.eqb (strip (ed_bucket w)) ""); simpl in *; [eauto|].
    apply bool_decide_eq_true in H. rewrite H. eauto.
  - rewrite H. eauto.
Qed.

(** A slot whose guard passes starts one worker of its kind, with usable
    arguments, on a window that differs from the old one in its log or its
    answer area only. *)
Lemma trigger_dispatch (k : op_kind) (w : MainWindow) :
  required_missing k w = false ->
  exists wk w0,
    trigger k w = start wk w0 /\ kind_of wk = k /\ well_formed wk = true /\
    started w0 = started w /\ dialogs w0 = dialogs w /\ worker_refs w0 = worker_refs w /\
    list_files w0 = list_files w /\
    (k = Ask /\ txt_log w0 = txt_log w \/
     k <> Ask /\ txt_answer w0 = txt_answer w /\ exists line, txt_log w0 = txt_log w ++ [line]).
Proof.
  destruct k; simpl; unfold on_validate_kb, on_ask, on_upload_files, on_sync_kb;
    intros H.
  - rewrite H. do 2 eexists. split; [reflexivity|]. simpl.
    unfold nonempty. rewrite H, or_None_nonempty. repeat split; try done.
    right. repeat split; eauto.
  - apply orb_false_iff in H as [H1 H2]. rewrite H1, H2.
    do 2 eexists. split; [reflexivity|]. simpl.
    unfold nonempty. rewrite H1, H2, or_None_nonempty. repeat split; try done.
    left. done.
  - apply orb_false_iff in H as [H1 H2]. rewrite H1.
    apply bool_decide_eq_false in H2.
    destruct (list_files w) as [|f fs] eqn:E; [done|].
    do 2 eexists. split; [reflexivity|]. simpl.
    rewrite or_None_nonempty, default_prefix_nonempty.
    unfold nonempty. rewrite H1. simpl. repeat split; try done.
    right. repeat split; eauto.
  - rewrite H. do 2 eexists. split; [reflexivity|]. simpl.
    unfold nonempty. rewrite H. repeat split; try done.
    right. repeat split; eauto.
Qed.

(** X1: whatever a slot starts is a worker of the slot's kind whose
    arguments are usable: identifiers, bucket, question and prefix are not
    empty, the file list is not empty, and an optional region or
    knowledge-base id is [None] rather than an empty string. *)
Theorem dispatch_well_formed (k : op_kind) (w : MainWindow) (wk : worker) :
  started (trigger k w) = started w ++ [wk] ->
  kind_of wk = k /\ well_formed wk = true.
Proof.
  intros Hst. destruct (required_missing k w) eqn:E.
  - destruct (trigger_guarded k w E) as [d Hd]. rewrite Hd in Hst. simpl in Hst.
    apply (f_equal length) in Hst. rewrite length_app in Hst. simpl in Hst. lia.
  - destruct (trigger_dispatch k w E) as (wk0 & w0 & Ht & Hk & Hwf & Hs & _).
    rewrite Ht in Hst. simpl in Hst. rewrite Hs in Hst.
    apply app_inv_head in Hst. injection Hst as <-. done.
Qed.

Lemma dispatch_well_formed_witness :
  let wk := UploadWorker "papers" (Some "KB1") "documents/" ["a.pdf"; "b.pdf"] in
  started (trigger Upload Demo.ready) = started Demo.ready ++ [wk] /\
  kind_of wk = Upload /\ well_formed wk = true.
Proof.
  intros wk. split; [reflexivity|].
  apply (dispatch_well_formed Upload Demo.ready wk). reflexivity.
Defined.

(** X2: of several missing inputs only the first one checked is reported:
    the knowledge-base id before the question, the bucket before the file
    list; the first two with a warning box, the others with an information
    box.  A refused dispatch writes neither to the log nor to the answer
    area. *)
Theorem guard_first_missing (k : op_kind) (w : MainWindow) :
  required_missing k w = true ->
  txt_log (trigger k w) = txt_log w /\
  txt_answer (trigger k w) = txt_answer w /\
  dialogs (trigger k w) = dialogs w ++
    [match k with
     | Validate | Sync => warning "입력 필요" "Knowledge Base ID를 입력하세요."
     | Ask =>
         if String.eqb (strip (ed_kb w)) ""
         then warning "입력 필요" "Knowledge Base ID를 입력하세요."
         else information "입력 필요" "질문을 입력하세요."
     | Upload =>
         if String.eqb (strip (ed_bucket w)) ""
         then warning "입력 필요" "S3 Bucket을 입력하세요."
         else information "파일 없음" "업로드할 PDF 파일을 추가하세요."
     end].
Proof.
  destruct k; simpl; unfold on_validate_kb, on_ask, on_upload_files, on_sync_kb;
    intros H.
  - by rewrite H.
  - destruct (String.eqb (strip (ed_kb w)) ""); simpl in *; [done|]. by rewrite H.
  - destruct (String.eqb (strip (ed_bucket w)) ""); simpl in *; [done|].
    apply bool_decide_eq_true in H. by rewrite H.
  - by rewrite H.
Qed.

Lemma guard_first_missing_witness :
  required_missing Ask Demo.window = true /\
  txt_log (trigger Ask Demo.window) = txt_log Demo.window /\
  txt_answer (trigger Ask Demo.window) = txt_answer Demo.window /\
  dialogs (trigger Ask Demo.window) =
    dialogs Demo.window ++ [warning "입력 필요" "Knowledge Base ID를 입력하세요."].
Proof.
  split; [reflexivity|].
  apply (guard_first_missing Ask Demo.window). reflexivity.
Defined.

Lemma add_items_spec (files : list string) (w : MainWindow) :
  let w' := fold_left (fun w f => add_item f w) files w in
  list_files w' = list_files w ++ files /\
  txt_log w' = txt_log w /\ txt_answer w' = txt_answer w /\
  dialogs w' = dialogs w /\ started w' = started w /\
  worker_refs w' = worker_refs w /\
  ed_bucket w' = ed_bucket w /\ ed_kb w' = ed_kb w /\ ed_prefix w' = ed_prefix w /\
  ed_region w' = ed_region w /\ ed_prompt w' = ed_prompt w.
Proof.
  revert w. induction files as [|f fs IH]; intros w; simpl.
  - by rewrite app_nil_r.
  - destruct (IH (add_item f w)) as (H1 & H2 & H3 & H4 & H5 & H6 & H7 & H8 & H9 & H10 & H11).
    simpl in *. rewrite H1, <- app_assoc. done.
Qed.

(** X3: an upload needs no knowledge-base id and no prefix: with a bucket
    and at least one file the slot starts the worker on the files in list
    order, with [None] for a blank id and ["documents/"] for a blank prefix,
    and logs the number of files and the destination. *)
Theorem upload_defaults (w : MainWindow) :
  String.eqb (strip (ed_bucket w)) "" = false ->
  list_files w <> [] ->
  let bucket := strip (ed_bucket w) in
  let kb_id := if String.eqb (strip (ed_kb w)) "" then None else Some (strip (ed_kb w)) in
  let prefix :=
    if String.eqb (strip (ed_prefix w)) "" then "documents/" else strip (ed_prefix w) in
  started (on_upload_files w) = started w ++ [UploadWorker bucket kb_id prefix (list_files w)] /\
  dialogs (on_upload_files w) = dialogs w /\
  txt_log (on_upload_files w) =
    txt_log w ++ ["[업로드 시작] " +:+ pretty (length (list_files w)) +:+ "개 파일 → s3://"
                  +:+ bucket +:+ "/" +:+ prefix].
Proof.
  intros Hb Hf. unfold on_upload_files. rewrite Hb.
  destruct (list_files w) as [|f fs] eqn:E; [done|]. simpl.
  unfold or_None. destruct (String.eqb (strip (ed_kb w)) "");
    destruct (String.eqb (strip (ed_prefix w)) ""); done.
Qed.

Lemma upload_defaults_witness :
  String.eqb (strip (ed_bucket Demo.ready)) "" = false /\
  list_files Demo.ready <> [] /\
  started (on_upload_files Demo.ready) =
    started Demo.ready ++ [UploadWorker "papers" (Some "KB1") "documents/" ["a.pdf"; "b.pdf"]] /\
  dialogs (on_upload_files Demo.ready) = dialogs Demo.ready /\
  txt_log (on_upload_files Demo.ready) =
    txt_log Demo.ready ++ ["[업로드 시작] 2개 파일 → s3://papers/documents/"].
Proof.
  assert (list_files Demo.ready <> []) as Hf by discriminate.
  split; [reflexivity|]. split; [exact Hf|].
  apply (upload_defaults Demo.ready); [reflexivity | exact Hf].
Defined.

(** X4: the log only grows: every slot of a button, every slot connected to
    a worker's signal, adding files, clearing the list and clearing the
    question keep the lines already logged, in place. *)
Theorem log_append_only (w : MainWindow) :
  (forall k, txt_log w `prefix_of` txt_log (trigger k w)) /\
  (forall wk s, txt_log w `prefix_of` txt_log (slot wk s w)) /\
  (forall files, txt_log w `prefix_of` txt_log (on_add_files files w)) /\
  txt_log w `prefix_of` txt_log (on_clear_files w) /\
  txt_log w `prefix_of` txt_log (clear_prompt w).
Proof.
  split; [|split; [|split; [|split]]].
  - intros k. destruct (required_missing k w) eqn:E.
    + destruct (trigger_guarded k w E) as [d ->]. done.
    + destruct (trigger_dispatch k w E) as (wk & w0 & -> & _ & _ & _ & _ & _ & _ & Hlog).
      simpl. destruct Hlog as [[_ ->] | (_ & _ & line & ->)]; [done|].
      by apply prefix_app_r.
  - intros wk s. destruct wk, s; simpl; try done; by apply prefix_app_r.
  - intros files. unfold on_add_files.
    destruct files as [|f fs]; [done|].
    destruct (add_items_spec (f :: fs) w) as (_ & Hlog & _).
    unfold _append_log; cbn [txt_log]. rewrite Hlog. by apply prefix_app_r.
  - simpl. by apply prefix_app_r.
  - done.
Qed.

(** X5: the answer area and the log do not interfere: the slots of the ask
    worker leave the log alone, the slots of the other workers leave the
    answer alone, and a signal of the ask worker and a signal of another
    worker give the same window in either order of arrival. *)
Theorem ask_signals_independent (wk1 wk2 : worker) (s1 s2 : signal) (w : MainWindow) :
  kind_of wk1 = Ask ->
  kind_of wk2 <> Ask ->
  txt_log (slot wk1 s1 w) = txt_log w /\
  txt_answer (slot wk2 s2 w) = txt_answer w /\
  slot wk1 s1 (slot wk2 s2 w) = slot wk2 s2 (slot wk1 s1 w).
Proof.
  intros H1 H2. destruct wk1; try discriminate. destruct wk2; try done;
    destruct s1, s2; done.
Qed.

Lemma ask_signals_independent_witness :
  let wk1 := AskWorker "KB1" None "What is IAM?" false in
  let wk2 := SyncWorker "KB1" in
  kind_of wk1 = Ask /\ kind_of wk2 <> Ask /\
  txt_log (slot wk1 (finished "A") Demo.ready) = txt_log Demo.ready /\
  txt_answer (slot wk2 (failed "E") Demo.ready) = txt_answer Demo.ready /\
  slot wk1 (finished "A") (slot wk2 (failed "E") Demo.ready)
    = slot wk2 (failed "E") (slot wk1 (finished "A") Demo.ready).
Proof.
  intros wk1 wk2.
  assert (kind_of wk2 <> Ask) as Hk by discriminate.
  split; [reflexivity|]. split; [exact Hk|].
  apply (ask_signals_independent wk1 wk2); [reflexivity | exact Hk].
Defined.

(** X6: a slot never takes a started thread back and never touches the
    worker attribute of another kind; a dispatch that passes its guard adds
    one thread and makes the attribute of its kind hold that worker.  So
    after two dispatches of one kind, with whatever edits of the fields in
    between, both workers are among the started threads, in the order of
    their dispatch, and the attribute, which held the first, holds the
    second. *)
Theorem dispatch_supersedes (k : op_kind) (w : MainWindow) :
  started w `prefix_of` started (trigger k w) /\
  (forall k', k' <> k -> worker_ref k' (trigger k w) = worker_ref k' w) /\
  (required_missing k w = false ->
   exists wk,
     started (trigger k w) = started w ++ [wk] /\
     worker_ref k (trigger k w) = Some wk) /\
  (forall w1,
     started w1 = started (trigger k w) ->
     required_missing k w = false ->
     required_missing k w1 = false ->
     exists wk1 wk2,
       started (trigger k w1) = started w ++ [wk1; wk2] /\
       worker_ref k (trigger k w) = Some wk1 /\
       worker_ref k (trigger k w1) = Some wk2).
Proof.
  assert (forall w0, required_missing k w0 = false ->
            exists wk, started (trigger k w0) = started w0 ++ [wk] /\
                       worker_ref k (trigger k w0) = Some wk) as Hnew.
  { intros w0 E.
    destruct (trigger_dispatch k w0 E) as (wk & w' & -> & Hk & _ & Hs & _).
    exists wk. simpl. rewrite Hs. split; [done|].
    destruct wk; simpl in Hk; subst k; reflexivity. }
  split; [|split; [|split]].
  - destruct (required_missing k w) eqn:E.
    + by destruct (trigger_guarded k w E) as [d ->].
    + destruct (Hnew w E) as (wk & -> & _). by apply prefix_app_r.
  - destruct (required_missing k w) eqn:E.
    + destruct (trigger_guarded k w E) as [d ->]. intros k' _. by destruct k'.
    + destruct (trigger_dispatch k w E) as (wk & w0 & -> & Hk & _ & _ & _ & Hr & _).
      unfold worker_refs in Hr. injection Hr as Ha Hkb Hu Hsy.
      intros k' Hne. destruct wk; simpl in Hk; subst k; destruct k'; simpl; congruence.
  - apply Hnew.
  - intros w1 Hs E E1.
    destruct (Hnew w E) as (wk1 & Hs1 & Hr1).
    destruct (Hnew w1 E1) as (wk2 & Hs2 & Hr2).
    exists wk1, wk2. rewrite Hs2, Hs, Hs1, <- app_assoc. done.
Qed.

Lemma dispatch_supersedes_witness :
  let w := Demo.ready in
  let w1 := on_add_files ["c.pdf"] (trigger Upload w) in
  let wk1 := UploadWorker "papers" (Some "KB1") "documents/" ["a.pdf"; "b.pdf"] in
  let wk2 := UploadWorker "papers" (Some "KB1") "documents/" ["a.pdf"; "b.pdf"; "c.pdf"] in
  started w1 = started (trigger Upload w) /\
  required_missing Upload w = false /\
  required_missing Upload w1 = false /\
  started (trigger Upload w1) = started w ++ [wk1; wk2] /\
  worker_ref Upload (trigger Upload w) = Some wk1 /\
  worker_ref Upload (trigger Upload w1) = Some wk2 /\
  worker_ref Ask (trigger Upload w1) = worker_ref Ask w1.
Proof.
  intros w w1 wk1 wk2.
  assert (Ask <> Upload) as Hne by discriminate.
  split; [reflexivity|]. split; [reflexivity|]. split; [reflexivity|].
  destruct (dispatch_supersedes Upload w) as (_ & _ & _ & Htwo).
  destruct (dispatch_supersedes Upload w1) as (_ & Hother & _ & _).
  destruct (Htwo w1 eq_refl eq_refl eq_refl) as (a & b & Hs & Hr1 & Hr2).
  assert (worker_ref Upload (trigger Upload w) = Some wk1) as E1 by reflexivity.
  assert (worker_ref Upload (trigger Upload w1) = Some wk2) as E2 by reflexivity.
  rewrite E1 in Hr1. rewrite E2 in Hr2. injection Hr1 as <-. injection Hr2 as <-.
  split; [exact Hs|]. split; [exact E1|]. split; [exact E2|].
  exact (Hother Ask Hne).
Defined.

(** X7: adding files appends them to the list in the order given, keeping
    what is there and keeping duplicates; a cancelled dialog changes nothing,
    otherwise one line with the number of added files is logged; and the
    next upload takes the whole list, old files first. *)
Theorem add_files_appends (files : list string) (w : MainWindow) :
  list_files (on_add_files files w) = list_files w ++ files /\
  started (on_add_files files w) = started w /\
  dialogs (on_add_files files w) = dialogs w /\
  (files = [] -> on_add_files files w = w) /\
  (files <> [] ->
   txt_log (on_add_files files w) =
     txt_log w ++ ["[선택] " +:+ pretty (length files) +:+ "개 파일 추가"]) /\
  (files <> [] ->
   String.eqb (strip (ed_bucket w)) "" = false ->
   exists kb_id prefix,
     started (on_upload_files (on_add_files files w)) =
       started w ++ [UploadWorker (strip (ed_bucket w)) kb_id prefix (list_files w ++ files)]).
Proof.
  destruct files as [|f fs].
  - simpl. rewrite app_nil_r. repeat split; done.
  - destruct (add_items_spec (f :: fs) w)
      as (Hl & Hlog & _ & Hd & Hs & _ & Hb & _).
    unfold on_add_files. unfold _append_log at 1 2 3 4 5; cbn [list_files started dialogs txt_log].
    rewrite Hl, Hs, Hd, Hlog.
    split; [done|]. split; [done|]. split; [done|]. split; [done|]. split; [done|].
    intros _ Hbucket.
    unfold on_upload_files. cbn [ed_bucket ed_kb ed_prefix list_files _append_log].
    rewrite Hb, Hbucket, Hl.
    destruct (list_files w ++ f :: fs) as [|g gs] eqn:E.
    { by destruct (list_files w). }
    do 2 eexists. cbn [started start _append_log]. rewrite Hs. reflexivity.
Qed.

Lemma add_files_appends_witness :
  let files := ["b.pdf"; "c.pdf"] in
  files <> [] /\
  String.eqb (strip (ed_bucket Demo.ready)) "" = false /\
  list_files (on_add_files files Demo.ready) = ["a.pdf"; "b.pdf"; "b.pdf"; "c.pdf"] /\
  txt_log (on_add_files files Demo.ready) =
    txt_log Demo.ready ++ ["[선택] " +:+ pretty (length files) +:+ "개 파일 추가"] /\
  exists kb_id prefix,
    started (on_upload_files (on_add_files files Demo.ready)) =
      started Demo.ready
      ++ [UploadWorker (strip (ed_bucket Demo.ready)) kb_id prefix
            (list_files Demo.ready ++ files)].
Proof.
  intros files.
  assert (files <> []) as Hf by discriminate.
  destruct (add_files_appends files Demo.ready) as (Hl & _ & _ & _ & Hlog & Hup).
  split; [exact Hf|]. split; [reflexivity|]. split; [exact Hl|].
  split; [exact (Hlog Hf)|]. exact (Hup Hf eq_refl).
Defined.

(** X8: clearing empties what the next dispatch needs: after the file list
    is cleared an upload starts no worker and shows a box, and files added
    afterwards are the whole list; after the question is cleared a query
    starts no worker and shows a box. *)
Theorem clear_then_guarded (w : MainWindow) :
  list_files (on_clear_files w) = [] /\
  (forall files, list_files (on_add_files files (on_clear_files w)) = files) /\
  started (on_upload_files (on_clear_files w)) = started w /\
  (exists d, dialogs (on_upload_files (on_clear_files w)) = dialogs w ++ [d]) /\
  txt_log (on_upload_files (on_clear_files w)) = txt_log w ++ ["[선택] 목록 비움"] /\
  ed_prompt (clear_prompt w) = "" /\
  started (on_ask (clear_prompt w)) = started w /\
  (exists d, dialogs (on_ask (clear_prompt w)) = dialogs w ++ [d]) /\
  txt_answer (on_ask (clear_prompt w)) = txt_answer w.
Proof.
  split; [done|]. split.
  { intros files. unfold on_add_files.
    destruct (add_items_spec files (on_clear_files w)) as (Hl & _).
    destruct files as [|f fs]; [done|]. cbn [_append_log list_files]. exact Hl. }
  assert (required_missing Upload (on_clear_files w) = true) as Hu.
  { simpl. apply orb_true_r. }
  assert (required_missing Ask (clear_prompt w) = true) as Ha.
  { simpl. apply orb_true_r. }
  destruct (trigger_guarded _ _ Hu) as [d1 H1].
  destruct (trigger_guarded _ _ Ha) as [d2 H2].
  simpl in H1, H2. rewrite H1, H2. simpl. repeat split; eauto.
Qed.

(** X9: a fresh window has started nothing and refers to no worker.  When
    every guarded import succeeded it shows no box; otherwise it shows one
    box, the dependency warning, whose text is the heading followed by one
    line for each failed import, with the module and the message of the
    error, in the order boto3, kb_for_rrag, pdf_uploader.  Its bucket and
    question are empty, so upload and query are refused until the user fills
    them in, while a health check and a sync are refused exactly when the
    environment gave no knowledge-base id. *)
Theorem init_window (boto3 kb_for_rrag pdf_uploader : result unit)
    (env : gmap string string) :
  let errs := load_errors boto3 kb_for_rrag pdf_uploader in
  let w := MainWindow_init errs env in
  let line (module : string) (r : result unit) : list string :=
    match r with
    | Ok _ => []
    | Raise e => [module +:+ " import 오류: " +:+ exn_str e]
    end in
  started w = [] /\
  worker_refs w = [None; None; None; None] /\
  (dialogs w = [] <-> boto3 = Ok tt /\ kb_for_rrag = Ok tt /\ pdf_uploader = Ok tt) /\
  length (dialogs w) <= 1 /\
  (forall d, d ∈ dialogs w ->
     d = warning "의존성 경고"
           ("다음 모듈 로드 중 문제가 발생했습니다:" +:+ nl
            +:+ join nl (line "boto3" boto3 ++ line "kb_for_rrag" kb_for_rrag
                         ++ line "pdf_uploader" pdf_uploader))) /\
  required_missing Upload w = true /\
  required_missing Ask w = true /\
  required_missing Validate w = String.eqb (strip (get_or (env !! "KNOWLEDGE_BASE_ID") "")) "" /\
  required_missing Sync w = required_missing Validate w.
Proof.
  intros errs w line. subst w errs line.
  split; [done|]. split; [done|].
  split; [|split; [|split; [|split; [done|split; [|done]]]]].
  - destruct boto3 as [[]|e1], kb_for_rrag as [[]|e2], pdf_uploader as [[]|e3]; simpl;
      split; try done; intros (H1 & H2 & H3); discriminate.
  - destruct boto3 as [[]|e1], kb_for_rrag as [[]|e2], pdf_uploader as [[]|e3]; simpl; lia.
  - intros d.
    destruct boto3 as [[]|e1], kb_for_rrag as [[]|e2], pdf_uploader as [[]|e3]; simpl;
      intros Hd; try (by apply elem_of_nil in Hd);
      apply list_elem_of_singleton in Hd; subst d; reflexivity.
  - simpl. apply orb_true_r.
Qed.

Lemma init_window_witness :
  let w := MainWindow_init
             (load_errors (Raise (Exception "No module named 'boto3'")) (Ok tt)
                (Raise (NameError "PDFUploader"))) ∅ in
  let d := warning "의존성 경고"
             (join nl ["다음 모듈 로드 중 문제가 발생했습니다:";
                       "boto3 import 오류: No module named 'boto3'";
                       "pdf_uploader import 오류: name 'PDFUploader' is not defined"]) in
  d ∈ dialogs w /\ length (dialogs w) <= 1 /\ dialogs w = [d].
Proof.
  intros w d.
  destruct (init_window (Raise (Exception "No module named 'boto3'")) (Ok tt)
              (Raise (NameError "PDFUploader")) ∅)
    as (_ & _ & _ & Hlen & Hd & _).
  assert (d ∈ dialogs w) as Hin by (apply list_elem_of_singleton; reflexivity).
  split; [exact Hin|]. split; [exact Hlen|].
  pose proof (Hd d Hin) as Heq. reflexivity.
Defined.

(** * Further properties of the workers *)

(** Split the events a run has added into those before the last and the
    last. *)
Ltac last_event :=
  repeat rewrite <- app_assoc; cbn [app];
  match goal with
  | |- exists evs sig, ?t ++ ?l = ?t ++ evs ++ [Emit sig] /\ _ =>
      exists (removelast l); cbn [removelast]; eexists; split; [reflexivity|]
  end.

Section WorkerOutcome.
Context {R : Runtime}.

Lemma loop_events_progress (u : Uploader R) (prefix : string) (files : list string) :
  forall uris, forallb is_progress_event (loop_events u prefix files uris) = true.
Proof.
  induction files as [|f rest IH]; intros [|uri uris]; simpl; try reflexivity.
  apply IH.
Qed.

(** X10: the query, the upload and the sync always, and the health check
    when [boto3] and [ClientError] are bound, let no exception escape and
    end with exactly one [finished] or [failed] signal, which is the last
    thing the run does: no call and no signal follows, and before it only
    the upload worker emits anything, and only [progress].  The health check
    with the two names unbound ends with a [NameError] and no signal. *)
Theorem run_ends_with_one_signal (wk : worker) (st : State R) :
  (kind_of wk = Validate -> ClientError_bound R = true ->
   snd (worker_run wk st) = Ok tt) /\
  (kind_of wk <> Validate -> snd (worker_run wk st) = Ok tt) /\
  (snd (worker_run wk st) = Ok tt ->
   exists evs sig,
     trace (exec (worker_run wk) st) = trace st ++ evs ++ [Emit sig] /\
     is_terminal sig = true /\
     forallb is_progress_event evs = true /\
     (kind_of wk <> Upload -> emitted evs = [])) /\
  (kind_of wk = Validate -> ClientError_bound R = false ->
   snd (worker_run wk st) = Raise (NameError "ClientError") /\
   emitted (trace (exec (worker_run wk) st)) = emitted (trace st)).
Proof.
  destruct wk as [kb_id region | kb_id region prompt allow_web
                 | bucket kb_id prefix files | kb_id]; simpl.
  - split; [|split; [done|split]].
    + intros _ Hb. unfold_run. rewrite Hb. oracle_cases; reflexivity.
    + unfold_run. destruct (ClientError_bound R) eqn:Hb.
      * oracle_cases; intros _; last_event; done.
      * rewrite (boto3_unbound_raises _ _ _ _ Hb). simpl. discriminate.
    + intros _ Hb. unfold_run. rewrite Hb, (boto3_unbound_raises _ _ _ _ Hb). simpl.
      split; [reflexivity|]. by tidy_trace.
  - split; [done|]. split; [|split; [|done]].
    + intros _. unfold_run. destruct region as [r|]; oracle_cases; reflexivity.
    + intros _. unfold_run. destruct region as [r|]; oracle_cases; last_event; done.
  - split; [done|]. split; [intros _; apply upload_run_result|]. split; [|done].
    intros _.
    destruct (PDFUploader R bucket kb_id (environ st) (world st)) as [w0 [u|e]] eqn:Hnew.
    + destruct (transfer_all u prefix files (environ st) w0) as [[w' uris] err] eqn:Hall.
      rewrite (upload_run_spec st _ _ _ _ u w0 w' uris err Hnew Hall). simpl.
      eexists (Call (c_PDFUploader bucket kb_id) :: loop_events u prefix files uris), _.
      split; [reflexivity|]. split; [by destruct err|].
      split; [apply loop_events_progress | done].
    + unfold_run. rewrite Hnew. simpl. last_event. done.
  - split; [done|]. split; [|split; [|done]].
    + intros _. unfold_run. oracle_cases; reflexivity.
    + intros _. unfold_run. oracle_cases; last_event; done.
Qed.

End WorkerOutcome.

Lemma run_ends_with_one_signal_witness :
  let wk := KBValidateWorker "KB1" (Some "us-east-1") in
  kind_of wk = Validate /\
  kind_of wk <> Upload /\
  ClientError_bound Demo.runtime = true /\
  ClientError_bound Demo.unloaded = false /\
  snd (worker_run wk Demo.st0) = Ok tt /\
  (exists evs sig,
     trace (exec (worker_run wk) Demo.st0) = trace Demo.st0 ++ evs ++ [Emit sig] /\
     is_terminal sig = true /\
     emitted evs = []) /\
  snd (worker_run wk Demo.unloaded0) = Raise (NameError "ClientError") /\
  emitted (trace (exec (worker_run wk) Demo.unloaded0)) = emitted (trace Demo.unloaded0).
Proof.
  intros wk.
  assert (kind_of wk <> Upload) as Hk by discriminate.
  split; [reflexivity|]. split; [exact Hk|]. split; [reflexivity|]. split; [reflexivity|].
  destruct (run_ends_with_one_signal wk Demo.st0) as (Hok & _ & Hend & _).
  destruct (run_ends_with_one_signal wk Demo.unloaded0) as (_ & _ & _ & Hesc).
  split; [exact (Hok eq_refl eq_refl)|]. split.
  - destruct (Hend (Hok eq_refl eq_refl)) as (evs & sig & Ht & Hsig & _ & Hq).
    exists evs, sig. split; [exact Ht|]. split; [exact Hsig|]. exact (Hq Hk).
  - exact (Hesc eq_refl eq_refl).
Defined.

Section AskOutcome.
Context {R : Runtime}.

(** The body of the query emits nothing before it raises. *)
Lemma ask_body_raise_silent (st st1 : State R) (kb_id : string) (region : option string)
    (prompt : string) (allow_web : bool) (e : exn) :
  ask_body kb_id region prompt allow_web st = (st1, Raise e) ->
  emitted (trace st1) = emitted (trace st).
Proof.
  unfold_run. destruct region as [r|]; oracle_cases;
    intros [= <- ?]; simpl; by tidy_trace.
Qed.

(** X11: when the agent answers, the query worker makes exactly three calls
    (the import, the construction of the agent, the question as the user
    typed it) and emits the [str] of the agent's result unchanged; delivered
    to the window, that text replaces the answer area and the log is not
    touched. *)
Theorem ask_answer_verbatim (st : State R) (kb_id : string) (region : option string)
    (prompt : string) (allow_web : bool) (w1 w2 w3 : World R) (a : AgentT R)
    (resp : AgentResult R) :
  has_nul kb_id = false ->
  (forall r, region = Some r -> has_nul r = false) ->
  let env := ask_environ kb_id region (environ st) in
  import_strands R env (world st) = (w1, Ok tt) ->
  Agent R "us.amazon.nova-lite-v1:0" (PAPER_AGENT_PROMPT R) (ask_tools allow_web) env w1
    = (w2, Ok a) ->
  Agent_call R a prompt env w2 = (w3, Ok resp) ->
  let wk := AskWorker kb_id region prompt allow_web in
  let st' := exec (worker_run wk) st in
  world st' = w3 /\
  called (trace st') =
    called (trace st)
    ++ [c_import_strands;
        c_Agent "us.amazon.nova-lite-v1:0" (PAPER_AGENT_PROMPT R) (ask_tools allow_web);
        c_Agent_call a prompt] /\
  emitted (trace st') = emitted (trace st) ++ [finished (str_result R resp)] /\
  forall w,
    txt_answer (deliver wk [finished (str_result R resp)] w) = str_result R resp /\
    txt_log (deliver wk [finished (str_result R resp)] w) = txt_log w.
Proof.
  intros Hkb Hreg env Himp Hagent Hcall wk st'. subst env wk st'.
  unfold ask_environ in *. simpl. unfold_run. rewrite Hkb. simpl.
  destruct region as [r|]; simpl in *.
  - destruct (negb (String.eqb r "")); simpl.
    + rewrite (Hreg r eq_refl). simpl. rewrite Himp. simpl. rewrite Hagent. simpl.
      rewrite Hcall. simpl. tidy_trace. done.
    + rewrite Himp. simpl. rewrite Hagent. simpl. rewrite Hcall. simpl. tidy_trace. done.
  - rewrite Himp. simpl. rewrite Hagent. simpl. rewrite Hcall. simpl. tidy_trace. done.
Qed.

(** X12: whatever fails in a query (an assignment to the environment, the
    import, the construction of the agent or the question itself), the
    worker stops there and emits one [failed] signal with the marker, the
    message and the trace; delivered, it is shown in the answer area. *)
Theorem ask_failure_reported (st st1 : State R) (kb_id : string) (region : option string)
    (prompt : string) (allow_web : bool) (e : exn) :
  ask_body kb_id region prompt allow_web st = (st1, Raise e) ->
  let wk := AskWorker kb_id region prompt allow_web in
  let st' := exec (worker_run wk) st in
  let text := "[질문 처리 오류] " +:+ exn_str e +:+ nl +:+ format_exc R e in
  trace st' = trace st1 ++ [Emit (failed text)] /\
  world st' = world st1 /\
  emitted (trace st') = emitted (trace st) ++ [failed text] /\
  forall w, txt_answer (deliver wk [failed text] w) = text.
Proof.
  intros H wk st' text.
  pose proof (ask_body_raise_silent _ _ _ _ _ _ _ H) as Hsilent.
  subst st' wk. simpl. unfold exec, AskWorker_run, try_except. rewrite H.
  unfold ask_handler, emit, log. simpl. tidy_trace. by rewrite Hsilent.
Qed.

End AskOutcome.

Lemma ask_answer_verbatim_witness :
  let wk := AskWorker "KB1" (Some "us-east-1") "What is IAM?" true in
  let st' := exec (worker_run wk) Demo.st0 in
  let env := ask_environ "KB1" (Some "us-east-1") (environ Demo.st0) in
  has_nul "KB1" = false /\
  (forall r, Some "us-east-1" = Some r -> has_nul r = false) /\
  import_strands Demo.runtime env (world Demo.st0) = ([], Ok tt) /\
  Agent Demo.runtime "us.amazon.nova-lite-v1:0" (PAPER_AGENT_PROMPT Demo.runtime)
    (ask_tools true) env [] = ([], Ok [retrieve; http_request]) /\
  Agent_call Demo.runtime [retrieve; http_request] "What is IAM?" env []
    = ([], Ok "A: What is IAM?") /\
  emitted (trace st') = emitted (trace Demo.st0) ++ [finished "A: What is IAM?"] /\
  txt_answer (deliver wk [finished "A: What is IAM?"] Demo.ready) = "A: What is IAM?".
Proof.
  intros wk st' env.
  assert (forall r, Some "us-east-1" = Some r -> has_nul r = false) as Hreg.
  { intros r [= <-]. reflexivity. }
  split; [reflexivity|]. split; [exact Hreg|].
  split; [reflexivity|]. split; [reflexivity|]. split; [reflexivity|].
  destruct (ask_answer_verbatim Demo.st0 "KB1" (Some "us-east-1") "What is IAM?" true
              [] [] [] [retrieve; http_request] "A: What is IAM?"
              eq_refl Hreg eq_refl eq_refl eq_refl) as (_ & _ & Hsig & Hwin).
  split; [exact Hsig|]. exact (proj1 (Hwin Demo.ready)).
Defined.

Lemma ask_failure_reported_witness :
  let wk := AskWorker "KB1" None "What is IAM?" false in
  let st1 := fst (ask_body "KB1" None "What is IAM?" false Demo.offline0) in
  let st' := exec (worker_run wk) Demo.offline0 in
  let e := Exception "No module named 'strands'" in
  let text := "[질문 처리 오류] " +:+ exn_str e +:+ nl +:+ format_exc Demo.offline e in
  ask_body "KB1" None "What is IAM?" false Demo.offline0 = (st1, Raise e) /\
  trace st' = trace st1 ++ [Emit (failed text)] /\
  world st' = world st1 /\
  emitted (trace st') = emitted (trace Demo.offline0) ++ [failed text] /\
  forall w, txt_answer (deliver wk [failed text] w) = text.
Proof.
  intros wk st1 st' e text.
  split; [reflexivity|].
  apply (ask_failure_reported Demo.offline0 st1 "KB1" None "What is IAM?" false e).
  reflexivity.
Defined.

Section HealthEdges.
Context {R : Runtime}.

(** X13: a [get_knowledge_base] response without the key [knowledgeBase]
    ends the health check with the [KeyError] of the subscript: the data
    sources are not asked for, and the failure is reported with the quoted
    key and the trace. *)
Theorem health_missing_knowledge_base (st : State R) (kb_id : string)
    (region : option string) (w1 w2 : World R) (c : Client R)
    (resp : gmap string (gmap string pyval)) :
  boto3_client R "bedrock-agent" (session_kwargs region) (environ st) (world st)
    = (w1, Ok c) ->
  get_knowledge_base R c kb_id (environ st) w1 = (w2, Ok resp) ->
  resp !! "knowledgeBase" = None ->
  let st' := exec (KBValidateWorker_run kb_id region) st in
  world st' = w2 /\
  called (trace st') =
    called (trace st)
    ++ [c_boto3_client "bedrock-agent" (session_kwargs region);
        c_get_knowledge_base c kb_id] /\
  emitted (trace st') =
    emitted (trace st)
    ++ [failed ("[KB 점검 실패] 'knowledgeBase'" +:+ nl
                +:+ format_exc R (KeyError "knowledgeBase"))].
Proof.
  intros Hc Hkb Hnone st'.
  assert (ClientError_bound R = true) as Hb.
  { by apply (boto3_answer_bound _ _ _ _ _ _ Hc). }
  subst st'. unfold_run.
  rewrite Hb, Hc. simpl. rewrite Hkb. simpl. rewrite Hnone. simpl. tidy_trace. done.
Qed.

(** X14: a [ClientError] whose response carries no error code is reported
    with [None] in the place of the code. *)
Theorem health_code_missing (st st1 : State R) (kb_id : string) (region : option string)
    (response : gmap string (gmap string pyval)) (msg : string) :
  kb_body kb_id region st = (st1, Raise (ClientError response msg)) ->
  response !! "Error" ≫= (.!! "Code") = None ->
  let st' := exec (KBValidateWorker_run kb_id region) st in
  emitted (trace st') = emitted (trace st) ++ [failed ("[KB 점검 실패] None: " +:+ msg)].
Proof.
  intros H Hcode st'.
  destruct (kb_body_raise_silent _ _ _ _ _ H) as [Hsilent _].
  assert (ClientError_bound R = true) as Hb.
  { destruct (ClientError_bound R) eqn:Hb; [done|].
    revert H. unfold kb_body, bind, extern.
    by rewrite (boto3_unbound_raises _ _ _ _ Hb). }
  subst st'. unfold exec, KBValidateWorker_run, try_except. rewrite H.
  unfold kb_handler, emit, log, dict_get. rewrite Hb. simpl. tidy_trace. rewrite Hsilent.
  destruct (response !! "Error") as [err|]; simpl in *; [rewrite Hcode|]; reflexivity.
Qed.


End HealthEdges.

Lemma health_missing_knowledge_base_witness :
  let st' := exec (KBValidateWorker_run "KB1" None) Demo.quiet0 in
  boto3_client Demo.quiet "bedrock-agent" (session_kwargs None) ∅ tt = (tt, Ok tt) /\
  get_knowledge_base Demo.quiet tt "KB1" ∅ tt = (tt, Ok ∅) /\
  (∅ : gmap string (gmap string pyval)) !! "knowledgeBase" = None /\
  called (trace st') =
    [c_boto3_client "bedrock-agent" ∅; c_get_knowledge_base (R := Demo.quiet) tt "KB1"] /\
  emitted (trace st') =
    [failed ("[KB 점검 실패] 'knowledgeBase'" +:+ nl +:+ "'knowledgeBase'")].
Proof.
  intros st'.
  split; [reflexivity|]. split; [reflexivity|]. split; [reflexivity|].
  destruct (health_missing_knowledge_base Demo.quiet0 "KB1" None tt tt tt ∅
              eq_refl eq_refl eq_refl) as (_ & Hcalls & Hsig).
  split; [exact Hcalls | exact Hsig].
Defined.

Lemma health_code_missing_witness :
  let st1 := fst (kb_body "KB1" None Demo.offline0) in
  let st' := exec (KBValidateWorker_run "KB1" None) Demo.offline0 in
  kb_body "KB1" None Demo.offline0 = (st1, Raise (ClientError ∅ "Unable to connect")) /\
  (∅ : gmap string (gmap string pyval)) !! "Error" ≫= (.!! "Code") = None /\
  emitted (trace st') = [failed "[KB 점검 실패] None: Unable to connect"].
Proof.
  intros st1 st'.
  split; [reflexivity|]. split; [reflexivity|].
  apply (health_code_missing Demo.offline0 st1 "KB1" None ∅ "Unable to connect");
    reflexivity.
Defined.


Section UploadEdges.
Context {R : Runtime}.

(** X16: when the uploader object cannot be made the upload worker attempts
    no transfer and emits no progress: one [failed] signal with the error is
    all. *)
Theorem upload_constructor_failure (st : State R) (bucket : string)
    (kb_id : option string) (prefix : string) (files : list string) (w0 : World R)
    (e : exn) :
  PDFUploader R bucket kb_id (environ st) (world st) = (w0, Raise e) ->
  let st' := exec (UploadWorker_run bucket kb_id prefix files) st in
  world st' = w0 /\
  called (trace st') = called (trace st) ++ [c_PDFUploader bucket kb_id] /\
  emitted (trace st') =
    emitted (trace st)
    ++ [failed ("[업로드 실패] " +:+ exn_str e +:+ nl +:+ format_exc R e)].
Proof.
  intros Hnew st'. subst st'. unfold_run. rewrite Hnew. simpl. tidy_trace. done.
Qed.

Lemma loop_events_around_call (u : Uploader R) (prefix : string) (files : list string) :
  forall uris last pre post u' f p,
    loop_events u prefix files uris ++ [Emit last] = pre ++ Call (c_upload_pdf u' f p) :: post ->
    (exists pre', pre = pre' ++ [Emit (progress ("[업로드] " +:+ f +:+ " ..."))]) /\
    (exists s post', post = Emit s :: post').
Proof.
  induction files as [|f0 rest IH]; intros uris last pre post u' f p.
  - simpl. destruct pre as [|x [|y pre]]; simpl; intros H; discriminate.
  - destruct uris as [|uri uris]; simpl.
    + destruct pre as [|x [|y [|z pre]]]; simpl; intros H.
      * discriminate.
      * simplify_eq/=. split; [by exists []|eauto].
      * discriminate.
      * injection H as _ _ H. by destruct pre.
    + destruct pre as [|x [|y [|z pre]]]; simpl; intros H.
      * discriminate.
      * simplify_eq/=. split; [by exists []|eauto].
      * discriminate.
      * injection H as <- <- <- H.
        destruct (IH _ _ _ _ _ _ _ H) as [(pre' & ->) Hpost].
        split; [|exact Hpost].
        by exists (Emit (progress ("[업로드] " +:+ f0 +:+ " ...")) :: Call (c_upload_pdf u f0 prefix)
                   :: Emit (progress ("[완료] " +:+ uri)) :: pre').
Qed.

(** X17: in the trace of an upload every call of [upload_pdf] comes right
    after the start note of its file and is followed at once by a signal,
    the completion note or the failure: no transfer goes unannounced and
    none is left without an answer. *)
Theorem upload_note_around_transfer (st : State R) (bucket : string)
    (kb_id : option string) (prefix : string) (files : list string)
    (pre post : list (event R)) (u : Uploader R) (f p : string) :
  trace (exec (UploadWorker_run bucket kb_id prefix files) st)
    = trace st ++ pre ++ Call (c_upload_pdf u f p) :: post ->
  (exists pre', pre = pre' ++ [Emit (progress ("[업로드] " +:+ f +:+ " ..."))]) /\
  (exists s post', post = Emit s :: post').
Proof.
  destruct (PDFUploader R bucket kb_id (environ st) (world st)) as [w0 [u0|e]] eqn:Hnew.
  - destruct (transfer_all u0 prefix files (environ st) w0) as [[w' uris] err] eqn:Hall.
    rewrite (upload_run_spec st _ _ _ _ u0 w0 w' uris err Hnew Hall). simpl.
    intros H. apply app_inv_head in H.
    destruct pre as [|x pre]; simpl in H; [discriminate|].
    injection H as <- H.
    destruct (loop_events_around_call _ _ _ _ _ _ _ _ _ _ H) as [(pre' & ->) Hpost].
    split; [|exact Hpost]. by exists (Call (c_PDFUploader bucket kb_id) :: pre').
  - unfold_run. rewrite Hnew. simpl. rewrite <- app_assoc. simpl.
    intros H. apply app_inv_head in H.
    destruct pre as [|x [|y pre]]; simpl in H; try discriminate.
    injection H as _ _ H. by destruct pre.
Qed.

Lemma deliver_upload_log (bucket : string) (kb_id : option string) (prefix : string)
    (files : list string) (sigs : list signal) :
  forall w,
    txt_log (deliver (UploadWorker bucket kb_id prefix files) sigs w)
      = txt_log w ++ map upload_log_line sigs.
Proof.
  unfold deliver. induction sigs as [|s sigs IH]; intros w; cbn [fold_left map].
  - by rewrite app_nil_r.
  - rewrite IH. destruct s; simpl; by rewrite <- app_assoc.
Qed.

Lemma file_notes_lines (pairs : list (string * string)) :
  map upload_log_line (flat_map file_notes pairs)
    = flat_map (fun fu => ["[업로드] " +:+ fst fu +:+ " ..."; "[완료] " +:+ snd fu]) pairs.
Proof.
  induction pairs as [|fu pairs IH]; simpl; [done|]. by rewrite IH.
Qed.

(** X18: an upload dispatched from the window whose transfers all succeed
    leaves in the log, after what was there, the line of the dispatch, then
    for each file in list order its start and completion lines, then the
    line of the total with the completion marker. *)
Theorem upload_log_success (w : MainWindow) (st : State R) (u : Uploader R)
    (w0 w' : World R) (uris : list string) :
  let bucket := strip (ed_bucket w) in
  let kb_id := or_None (strip (ed_kb w)) in
  let prefix := default "documents/" (or_None (strip (ed_prefix w))) in
  let files := list_files w in
  let wk := UploadWorker bucket kb_id prefix files in
  String.eqb bucket "" = false ->
  files <> [] ->
  PDFUploader R bucket kb_id (environ st) (world st) = (w0, Ok u) ->
  transfer_all u prefix files (environ st) w0 = (w', uris, None) ->
  started (on_upload_files w) = started w ++ [wk] /\
  exists sigs,
    emitted (trace (exec (worker_run wk) st)) = emitted (trace st) ++ sigs /\
    txt_log (deliver wk sigs (on_upload_files w)) =
      txt_log w
      ++ ["[업로드 시작] " +:+ pretty (length files) +:+ "개 파일 → s3://"
          +:+ bucket +:+ "/" +:+ prefix]
      ++ flat_map (fun fu => ["[업로드] " +:+ fst fu +:+ " ..."; "[완료] " +:+ snd fu])
           (zip files uris)
      ++ ["[업로드 완료] 총 " +:+ pretty (length files) +:+ "개 업로드 완료"].
Proof.
  intros bucket kb_id prefix files wk Hb Hf Hnew Hall.
  pose proof (transfer_all_length _ _ _ _ _ _ _ _ Hall) as Hlen. simpl in Hlen.
  assert (on_upload_files w =
          start wk (_append_log ("[업로드 시작] " +:+ pretty (length files)
                                 +:+ "개 파일 → s3://" +:+ bucket +:+ "/" +:+ prefix) w))
    as Hup.
  { unfold on_upload_files. fold bucket. rewrite Hb. fold files.
    destruct files as [|f fs] eqn:E; [done|]. reflexivity. }
  split; [by rewrite Hup|].
  exists (flat_map file_notes (zip files uris)
          ++ [finished ("총 " +:+ pretty (length files) +:+ "개 업로드 완료")]).
  split.
  - subst wk. simpl. rewrite (upload_run_spec st _ _ _ _ u w0 w' uris None Hnew Hall). simpl.
    autorewrite with trace. rewrite emitted_loop_events.
    rewrite Hlen, firstn_all, lookup_ge_None_2 by lia. by rewrite app_nil_r.
  - subst wk. rewrite deliver_upload_log, Hup. simpl.
    rewrite map_app, file_notes_lines. simpl. by rewrite <- app_assoc.
Qed.

End UploadEdges.

Lemma upload_constructor_failure_witness :
  let e := Exception "Unable to locate credentials" in
  let st' := exec (UploadWorker_run "papers" None "documents/" ["a.pdf"]) Demo.offline0 in
  PDFUploader Demo.offline "papers" None (environ Demo.offline0) (world Demo.offline0)
    = (tt, Raise e) /\
  world st' = tt /\
  called (trace st') = called (trace Demo.offline0) ++ [c_PDFUploader "papers" None] /\
  emitted (trace st') =
    emitted (trace Demo.offline0)
    ++ [failed ("[업로드 실패] " +:+ exn_str e +:+ nl +:+ format_exc Demo.offline e)].
Proof.
  intros e st'.
  split; [reflexivity|].
  apply (upload_constructor_failure Demo.offline0 "papers" None "documents/" ["a.pdf"] tt e).
  reflexivity.
Defined.

Lemma upload_note_around_transfer_witness :
  let u : Uploader Demo.runtime := ("papers", None) in
  let pre : list (event Demo.runtime) :=
    [Call (c_PDFUploader "papers" None); Emit (progress "[업로드] a.pdf ...")] in
  let post : list (event Demo.runtime) :=
    [Emit (progress "[완료] s3://papers/documents/a.pdf"); Emit (finished "총 1개 업로드 완료")] in
  trace (exec (UploadWorker_run "papers" None "documents/" ["a.pdf"]) Demo.st0)
    = trace Demo.st0 ++ pre ++ Call (c_upload_pdf u "a.pdf" "documents/") :: post /\
  (exists pre', pre = pre' ++ [Emit (progress ("[업로드] " +:+ "a.pdf" +:+ " ..."))]) /\
  (exists s post', post = Emit s :: post').
Proof.
  intros u pre post.
  split; [reflexivity|].
  apply (upload_note_around_transfer Demo.st0 "papers" None "documents/" ["a.pdf"]
           pre post u "a.pdf" "documents/").
  reflexivity.
Defined.

Lemma upload_log_success_witness :
  let wk := UploadWorker "papers" (Some "KB1") "documents/" ["a.pdf"; "b.pdf"] in
  let uris := ["s3://papers/documents/a.pdf"; "s3://papers/documents/b.pdf"] in
  String.eqb (strip (ed_bucket Demo.ready)) "" = false /\
  list_files Demo.ready <> [] /\
  PDFUploader Demo.runtime "papers" (Some "KB1") (environ Demo.st0) (world Demo.st0)
    = ([], Ok ("papers", Some "KB1")) /\
  transfer_all (R := Demo.runtime) ("papers", Some "KB1") "documents/" ["a.pdf"; "b.pdf"]
    (environ Demo.st0) [] = (uris, uris, None) /\
  started (on_upload_files Demo.ready) = started Demo.ready ++ [wk] /\
  exists sigs,
    emitted (trace (exec (worker_run wk) Demo.st0)) = emitted (trace Demo.st0) ++ sigs /\
    txt_log (deliver wk sigs (on_upload_files Demo.ready)) =
      ["[선택] 2개 파일 추가";
       "[업로드 시작] 2개 파일 → s3://papers/documents/";
       "[업로드] a.pdf ..."; "[완료] s3://papers/documents/a.pdf";
       "[업로드] b.pdf ..."; "[완료] s3://papers/documents/b.pdf";
       "[업로드 완료] 총 2개 업로드 완료"].
Proof.
  intros wk uris.
  assert (list_files Demo.ready <> []) as Hf by discriminate.
  split; [reflexivity|]. split; [exact Hf|]. split; [reflexivity|]. split; [reflexivity|].
  apply (upload_log_success Demo.ready Demo.st0 ("papers", Some "KB1") [] uris uris);
    [reflexivity | exact Hf | reflexivity | reflexivity].
Defined.

(** * The sync from the window, and the environment as a seed *)

Section SyncAndSeed.
Context {R : Runtime}.

(** X19: a sync dispatched from the window makes its uploader with the
    placeholder bucket, whatever the bucket field holds, and leaves two
    lines in the log: the request with the knowledge-base id, then either
    the acceptance note with the sync marker or the failure text. *)
Theorem sync_log (w : MainWindow) (st : State R) :
  String.eqb (strip (ed_kb w)) "" = false ->
  let kb_id := strip (ed_kb w) in
  let wk := SyncWorker kb_id in
  let st' := exec (worker_run wk) st in
  started (on_sync_kb w) = started w ++ [wk] /\
  (exists rest,
     called (trace st') = called (trace st) ++ c_PDFUploader "dummy" (Some kb_id) :: rest) /\
  exists sig line,
    emitted (trace st') = emitted (trace st) ++ [sig] /\
    txt_log (deliver wk [sig] (on_sync_kb w)) =
      txt_log w ++ ["[동기화 요청] KB=" +:+ kb_id; line] /\
    (sig = finished "KB 동기화 작업 시작 요청 완료 (완료까지 수 분 소요)" /\
     line = "[동기화] KB 동기화 작업 시작 요청 완료 (완료까지 수 분 소요)" \/
     exists e,
       sig = failed line /\
       line = "[동기화 실패] " +:+ exn_str e +:+ nl +:+ format_exc R e).
Proof.
  intros Hkb kb_id wk st'. subst st' wk. unfold on_sync_kb. rewrite Hkb. fold kb_id.
  split; [reflexivity|]. simpl. unfold_run.
  oracle_cases; (split; [eexists; tidy_trace; reflexivity|]);
    do 2 eexists; (split; [tidy_trace; reflexivity|]);
    (split; [simpl; rewrite <- app_assoc; reflexivity|]); eauto.
Qed.

(** X20: what a query writes to the environment is what a new window reads
    from it: after a query with knowledge-base id [kb_id] the id field of a
    window built from the environment holds [kb_id], and after a query with
    a region its region field holds that region; without a region the field
    is seeded as it would have been before the query. *)
Theorem ask_seeds_window (st : State R) (kb_id : string) (region : option string)
    (prompt : string) (allow_web : bool) (errs : list string) :
  has_nul kb_id = false ->
  (forall r, region = Some r -> has_nul r = false) ->
  kb_id <> "" ->
  let st' := exec (AskWorker_run kb_id region prompt allow_web) st in
  let w := MainWindow_init errs (environ st') in
  ed_kb w = kb_id /\
  (forall r, region = Some r -> r <> "" -> ed_region w = r) /\
  (region = None -> ed_region w = ed_region (MainWindow_init errs (environ st))).
Proof.
  intros Hkb Hreg Hne st' w. subst w st'.
  rewrite (ask_environ_written st kb_id region prompt allow_web Hkb Hreg).
  unfold ask_environ, MainWindow_init, get_or. cbn [ed_kb ed_region].
  apply String.eqb_neq in Hne.
  split; [|split].
  - destruct region as [r|]; [destruct (truthy_opt (Some r))|];
      repeat (rewrite lookup_insert_ne by done); rewrite lookup_insert_eq; by rewrite Hne.
  - intros r -> Hr. apply String.eqb_neq in Hr. simpl. rewrite Hr. simpl.
    rewrite lookup_insert_ne by done. rewrite lookup_insert_eq. by rewrite Hr.
  - intros ->. by rewrite !lookup_insert_ne by done.
Qed.

End SyncAndSeed.

Lemma sync_log_witness :
  let wk := SyncWorker "KB1" in
  let st' := exec (worker_run wk) Demo.st0 in
  String.eqb (strip (ed_kb Demo.ready)) "" = false /\
  started (on_sync_kb Demo.ready) = started Demo.ready ++ [wk] /\
  (exists rest,
     called (trace st') = called (trace Demo.st0) ++ c_PDFUploader "dummy" (Some "KB1") :: rest) /\
  exists sig line,
    emitted (trace st') = emitted (trace Demo.st0) ++ [sig] /\
    txt_log (deliver wk [sig] (on_sync_kb Demo.ready)) =
      txt_log Demo.ready ++ ["[동기화 요청] KB=" +:+ "KB1"; line] /\
    (sig = finished "KB 동기화 작업 시작 요청 완료 (완료까지 수 분 소요)" /\
     line = "[동기화] KB 동기화 작업 시작 요청 완료 (완료까지 수 분 소요)" \/
     exists e,
       sig = failed line /\
       line = "[동기화 실패] " +:+ exn_str e +:+ nl +:+ format_exc Demo.runtime e).
Proof.
  intros wk st'.
  split; [reflexivity|].
  apply (sync_log Demo.ready Demo.st0). reflexivity.
Defined.

Lemma ask_seeds_window_witness :
  let st' := exec (AskWorker_run "KB1" (Some "us-east-1") "What is IAM?" false) Demo.st0 in
  let w := MainWindow_init [] (environ st') in
  has_nul "KB1" = false /\
  (forall r, Some "us-east-1" = Some r -> has_nul r = false) /\
  "KB1" <> "" /\ "us-east-1" <> "" /\
  ed_kb w = "KB1" /\ ed_region w = "us-east-1".
Proof.
  intros st' w.
  assert (forall r, Some "us-east-1" = Some r -> has_nul r = false) as Hreg.
  { intros r [= <-]. reflexivity. }
  assert ("KB1" <> "") as Hkb by discriminate.
  assert ("us-east-1" <> "") as Hr by discriminate.
  split; [reflexivity|]. split; [exact Hreg|]. split; [exact Hkb|]. split; [exact Hr|].
  destruct (ask_seeds_window Demo.st0 "KB1" (Some "us-east-1") "What is IAM?" false []
              eq_refl Hreg Hkb) as (Hk & Hregion & _).
  split; [exact Hk|]. exact (Hregion "us-east-1" eq_refl Hr).
Defined.
